(** * Hyperlane auth-service: identity reconciliation and session validation

    A shallow embedding of
      - apps/auth-service/src/services/identity.service.ts
          (IdentityService.syncUser, IdentityService.deleteUser)
      - apps/auth-service/src/grpc/auth.handler.ts (validateSession)
    together with the two stores they talk to (Redis through ioredis, the
    [user] and [laneMember] tables through Prisma) and the identity provider
    (Clerk).  Asynchronous functions become computations in a state-and-
    exception monad over a [World]; every [await]ed call to a collaborator is
    recorded in the world's trace.  One run of a function is one transition
    of the world: runs of different requests are sequenced, not interleaved,
    and time passes between runs ([advance]).  Logging has no effect on the
    stores or on the outcome and is left out. *)

From Stdlib Require Import ZArith String Ascii List Bool Lia DecimalString.
From stdpp Require Import gmap strings list fin_maps.
Import ListNotations.

Local Open Scope string_scope.
Local Open Scope Z_scope.

(* ===================================================================== *)
(** ** JavaScript strings *)
(* ===================================================================== *)

(** A JavaScript string is a sequence of code units; a Rocq [string] is used
    for it, one [ascii] per code unit. *)
Module JsString.

Definition len (s : string) : nat := String.length s.

Fixpoint drop (n : nat) (s : string) : string :=
  match n, s with
  | O, _ => s
  | S n', String _ s' => drop n' s'
  | S _, EmptyString => EmptyString
  end.

Fixpoint take (n : nat) (s : string) : string :=
  match n, s with
  | O, _ => EmptyString
  | S n', String c s' => String c (take n' s')
  | S _, EmptyString => EmptyString
  end.

(** [s.slice(-n)]: the start index is [max (len s - n) 0]. *)
Definition slice_last (n : nat) (s : string) : string :=
  drop (len s - n)%nat s.

(** [s.slice(0, n)]. *)
Definition slice_first (n : nat) (s : string) : string := take n s.

(** [s.startsWith(p)]. *)
Fixpoint startsWith (p s : string) : bool :=
  match p, s with
  | EmptyString, _ => true
  | String a p', String b s' => if Ascii.eqb a b then startsWith p' s' else false
  | String _ _, EmptyString => false
  end.

(** [s.includes(sub)]. *)
Fixpoint includes (sub s : string) : bool :=
  startsWith sub s ||
  match s with
  | EmptyString => false
  | String _ s' => includes sub s'
  end.

(** [s.split(sep)] for a one-character separator. *)
Fixpoint split_aux (sep : ascii) (cur : string) (s : string) : list string :=
  match s with
  | EmptyString => [cur]
  | String c s' =>
      if Ascii.eqb c sep then cur :: split_aux sep EmptyString s'
      else split_aux sep (cur +:+ String c EmptyString) s'
  end.

Definition split (sep : ascii) (s : string) : list string :=
  split_aux sep EmptyString s.

(** Truthiness of a string: only the empty string is falsy. *)
Definition truthy (s : string) : bool :=
  match s with EmptyString => false | String _ _ => true end.

(** Truthiness of [string | null | undefined]. *)
Definition truthy_opt (o : option string) : bool :=
  match o with Some s => truthy s | None => false end.

End JsString.

(* ===================================================================== *)
(** ** Errors *)
(* ===================================================================== *)

(** The codes of [@connectrpc/connect] that the handler uses. *)
Inductive Code :=
| InvalidArgument
| FailedPrecondition
| PermissionDenied
| Internal.

Definition codeToString (c : Code) : string :=
  match c with
  | InvalidArgument => "invalid_argument"
  | FailedPrecondition => "failed_precondition"
  | PermissionDenied => "permission_denied"
  | Internal => "internal"
  end.

(** The [code] property of a thrown object: absent, a string (Prisma's
    ["P2025"], Node's ["ECONNRESET"]) or a Connect code. *)
Inductive ErrCode :=
| NoCode
| StrCode (s : string)
| ConnectCode (c : Code).

(** A thrown object, as far as the code inspects it: [message] and [code]. *)
Record JsError := mkError { message : string; code : ErrCode }.

(** [new ConnectError(msg, code)].  The library (not part of the sources)
    prefixes the message with the code in brackets. *)
Definition ConnectError (msg : string) (c : Code) : JsError :=
  {| message := "[" +:+ codeToString c +:+ "]" +:+
                (if JsString.truthy msg then " " +:+ msg else "");
     code := ConnectCode c |}.

Inductive Result (A : Type) :=
| Ok (a : A)
| Throw (e : JsError).
Arguments Ok {A} a.
Arguments Throw {A} e.


(* ===================================================================== *)
(** ** Data model *)
(* ===================================================================== *)

(** Modelled from the spec: the Prisma schema (packages/database/prisma/
    schema.prisma) is not among the sources.  A row of the [user] table has
    the columns the code reads and writes ([id], [clerkId], [email],
    [username], [avatarUrl], [updatedAt], [deletedAt]) and the [createdAt]
    of the spec's Identity Record.  Dates are milliseconds on the world's
    clock. *)
Module User.
Record t := mk {
  id : string;
  clerkId : string;
  email : string;
  username : string;
  avatarUrl : option string;
  createdAt : Z;
  updatedAt : Z;
  deletedAt : option Z
}.
End User.

(** Modelled from the spec: the [LaneRole] enum of the missing schema; the
    handler only distinguishes [LaneRole.BANNED] from every other role. *)
Inductive LaneRole :=
| BANNED
| OtherRole (name : string).

Definition LaneRole_eqb (a b : LaneRole) : bool :=
  match a, b with
  | BANNED, BANNED => true
  | OtherRole x, OtherRole y => String.eqb x y
  | _, _ => false
  end.

(** The part of a Clerk user profile the handler reads. *)
Module ClerkUser.
Record EmailAddress := mkEmail { id : string; emailAddress : string }.
Record t := mk {
  emailAddresses : list EmailAddress;
  primaryEmailAddressId : option string;
  username : option string;
  imageUrl : string
}.
End ClerkUser.

(** [interface SyncUserDto]. *)
Module SyncUserDto.
Record t := mk {
  clerkId : string;
  email : string;
  username : string;
  avatarUrl : option string;
  eventId : option string
}.
End SyncUserDto.

(** The request and response messages of the [ValidateSession] RPC, with the
    fields the handler reads and fills. *)
Module ValidateSessionRequest.
Record t := mk { token : string; requiredScope : string }.
End ValidateSessionRequest.

Module ValidateSessionResponse.
Record t := mk {
  valid : bool;
  userId : string;
  username : string;
  avatarUrl : string;
  roles : list string;
  extraClaims : list (string * string)
}.

(** [create(ValidateSessionResponseSchema, { valid: false })]: every other
    field takes its proto3 default. *)
Definition invalid : t :=
  {| valid := false; userId := ""; username := ""; avatarUrl := "";
     roles := []; extraClaims := [] |}.
End ValidateSessionResponse.

(** [toJsonString] and [fromJsonString] of [@bufbuild/protobuf] at
    [ValidateSessionResponseSchema].  The library and the generated schema
    are not among the sources: the pair is a parameter of the handler. *)
Record Codec := mkCodec {
  toJsonString : ValidateSessionResponse.t -> string;
  fromJsonString : string -> Result ValidateSessionResponse.t
}.

(* ===================================================================== *)
(** ** The world: stores, provider, clock, trace *)
(* ===================================================================== *)

(** A Redis string key written with [EX]: the value and the instant (ms) at
    which it expires. *)
Record RedisEntry := mkEntry { value : string; expiresAt : Z }.

(** The awaited calls to collaborators. *)
Inductive Call :=
| RedisGet (key : string)
| RedisSet (key val : string) (ex : Z)
| UserFindUnique (clerkId : string)
| UserFindUniqueOrThrow (clerkId : string)
| UserUpsert (clerkId : string)
| UserUpdate (clerkId : string)
| LaneMemberFindUnique (laneId userId : string)
| VerifyToken (token : string)
| ClerkGetUser (clerkId : string).

(** [users] is keyed by [clerkId], the unique column that [findUnique],
    [upsert] and [update] select on.  [verifier] and [provider] are Clerk's
    answers.  [faults n] is the rejection, if any, of the [n]-th awaited
    store call (unavailability, constraint violation, ...): [n] is the length
    of the trace when the call is made. *)
Record World := mkWorld {
  now : Z;
  redis : gmap string RedisEntry;
  users : gmap string User.t;
  laneMembers : gmap (string * string) LaneRole;
  verifier : string -> Result string;
  provider : string -> Result ClerkUser.t;
  uuids : nat -> string;
  uuid_count : nat;
  faults : nat -> option JsError;
  trace : list Call
}.

Definition set_now (t : Z) (w : World) : World :=
  mkWorld t (redis w) (users w) (laneMembers w) (verifier w) (provider w)
          (uuids w) (uuid_count w) (faults w) (trace w).

Definition set_redis (r : gmap string RedisEntry) (w : World) : World :=
  mkWorld (now w) r (users w) (laneMembers w) (verifier w) (provider w)
          (uuids w) (uuid_count w) (faults w) (trace w).

Definition set_users (u : gmap string User.t) (w : World) : World :=
  mkWorld (now w) (redis w) u (laneMembers w) (verifier w) (provider w)
          (uuids w) (uuid_count w) (faults w) (trace w).

Definition set_uuid_count (n : nat) (w : World) : World :=
  mkWorld (now w) (redis w) (users w) (laneMembers w) (verifier w) (provider w)
          (uuids w) n (faults w) (trace w).

Definition set_trace (t : list Call) (w : World) : World :=
  mkWorld (now w) (redis w) (users w) (laneMembers w) (verifier w) (provider w)
          (uuids w) (uuid_count w) (faults w) t.

Definition record (c : Call) (w : World) : World :=
  set_trace (trace w ++ [c]) w.

(** Time passing between two requests. *)
Definition advance (dt : Z) (w : World) : World := set_now (now w + dt) w.

(* ===================================================================== *)
(** ** The monad of asynchronous functions *)
(* ===================================================================== *)

Definition M (A : Type) : Type := World -> Result A * World.

Definition ret {A} (a : A) : M A := fun w => (Ok a, w).

Definition throw {A} (e : JsError) : M A := fun w => (Throw e, w).

Definition bind {A B} (m : M A) (k : A -> M B) : M B :=
  fun w =>
    match m w with
    | (Ok a, w') => k a w'
    | (Throw e, w') => (Throw e, w')
    end.

(** [try { m } catch (e) { h e }]. *)
Definition try_catch {A} (m : M A) (h : JsError -> M A) : M A :=
  fun w =>
    match m w with
    | (Ok a, w') => (Ok a, w')
    | (Throw e, w') => h e w'
    end.

Definition lift {A} (r : Result A) : M A := fun w => (r, w).

Declare Scope js_scope.
Delimit Scope js_scope with js.
Notation "x <- m ;; k" := (bind m (fun x => k))
  (at level 100, m at next level, right associativity) : js_scope.
Notation "m ;; k" := (bind m (fun _ => k))
  (at level 100, right associativity) : js_scope.
Local Open Scope js_scope.

(** An awaited call to a store: recorded in the trace, rejected when the
    fault oracle says so, run otherwise. *)
Definition await {A} (c : Call) (run : World -> Result A * World) : M A :=
  fun w =>
    match faults w (length (trace w)) with
    | Some e => (Throw e, record c w)
    | None => run (record c w)
    end.

(** An awaited call to the identity provider: recorded in the trace; the
    answer, rejections included, is the provider's. *)
Definition ask {A} (c : Call) (answer : World -> Result A) : M A :=
  fun w => (answer w, record c w).

(** [new Date()]. *)
Definition new_Date : M Z := fun w => (Ok (now w), w).

(** [uuidv7()]. *)
Definition uuidv7 : M string :=
  fun w => (Ok (uuids w (uuid_count w)), set_uuid_count (S (uuid_count w)) w).

(* ===================================================================== *)
(** ** lib/redis.ts: the commands used *)
(* ===================================================================== *)

(** What a [GET] answers at the world's instant: the value of a key that is
    present and not yet expired. *)
Definition redis_read (w : World) (key : string) : option string :=
  match redis w !! key with
  | Some e => if now w <? expiresAt e then Some (value e) else None
  | None => None
  end.

(** [redis.get(key)]. *)
Definition redis_get (key : string) : M (option string) :=
  await (RedisGet key) (fun w => (Ok (redis_read w key), w)).

(** [redis.set(key, val, "EX", ex)], [ex] in seconds. *)
Definition redis_set (key val : string) (ex : Z) : M unit :=
  await (RedisSet key val ex)
    (fun w => (Ok tt,
               set_redis (<[key := mkEntry val (now w + ex * 1000)]> (redis w)) w)).

(* ===================================================================== *)
(** ** packages/database: the Prisma operations used *)
(* ===================================================================== *)

(** Prisma's "required record not found" error. *)
Definition P2025 : JsError :=
  mkError "An operation failed because it depends on one or more records that were required but not found."
          (StrCode "P2025").

(** [prisma.user.findUnique({ where: { clerkId } })]. *)
Definition prisma_user_findUnique (clerkId : string) : M (option User.t) :=
  await (UserFindUnique clerkId) (fun w => (Ok (users w !! clerkId), w)).

(** [prisma.user.findUniqueOrThrow({ where: { clerkId } })]. *)
Definition prisma_user_findUniqueOrThrow (clerkId : string) : M User.t :=
  await (UserFindUniqueOrThrow clerkId)
    (fun w => match users w !! clerkId with
              | Some u => (Ok u, w)
              | None => (Throw P2025, w)
              end).

(** [prisma.user.upsert({ where: { clerkId }, update, create })]: one atomic
    step of the store. *)
Definition prisma_user_upsert (clerkId : string)
    (update : User.t -> User.t) (create : User.t) : M User.t :=
  await (UserUpsert clerkId)
    (fun w => let u := match users w !! clerkId with
                       | Some old => update old
                       | None => create
                       end in
              (Ok u, set_users (<[clerkId := u]> (users w)) w)).

(** [prisma.user.update({ where: { clerkId }, data })]. *)
Definition prisma_user_update (clerkId : string) (data : User.t -> User.t)
    : M User.t :=
  await (UserUpdate clerkId)
    (fun w => match users w !! clerkId with
              | Some old => (Ok (data old),
                             set_users (<[clerkId := data old]> (users w)) w)
              | None => (Throw P2025, w)
              end).

(** [prisma.laneMember.findUnique({ where: { laneId_userId } })], the role
    of the membership when there is one. *)
Definition prisma_laneMember_findUnique (laneId userId : string)
    : M (option LaneRole) :=
  await (LaneMemberFindUnique laneId userId)
    (fun w => (Ok (laneMembers w !! (laneId, userId)), w)).

(* ===================================================================== *)
(** ** @clerk/backend *)
(* ===================================================================== *)

(** [verifyToken(token, { secretKey })]: the [sub] claim or a rejection. *)
Definition verifyToken (token : string) : M string :=
  ask (VerifyToken token) (fun w => verifier w token).

(** [clerk.users.getUser(clerkId)]. *)
Definition clerk_users_getUser (clerkId : string) : M ClerkUser.t :=
  ask (ClerkGetUser clerkId) (fun w => provider w clerkId).

(* ===================================================================== *)
(** ** services/identity.service.ts *)
(* ===================================================================== *)

Module IdentityService.

Definition idempotencyKey (eventId : string) : string :=
  "event:processed:" +:+ eventId.

(** The [update] object of the upsert in [syncUser]. *)
Definition update_data (email username : string) (avatarUrl : option string)
    (date : Z) (old : User.t) : User.t :=
  {| User.id := User.id old;
     User.clerkId := User.clerkId old;
     User.email := email;
     User.username := username;
     User.avatarUrl := avatarUrl;
     User.createdAt := User.createdAt old;
     User.updatedAt := date;
     User.deletedAt := None |}.

(** The [create] object of the upsert in [syncUser]; [createdAt],
    [updatedAt] and [deletedAt] take the schema's defaults. *)
Definition create_data (id clerkId email username : string)
    (avatarUrl : option string) (date : Z) : User.t :=
  {| User.id := id;
     User.clerkId := clerkId;
     User.email := email;
     User.username := username;
     User.avatarUrl := avatarUrl;
     User.createdAt := date;
     User.updatedAt := date;
     User.deletedAt := None |}.

(** The [data] object of the update in [deleteUser]; [updatedAt] is the
    schema's business and follows the spec's data model (set on every
    mutation). *)
Definition delete_data (date : Z) (old : User.t) : User.t :=
  {| User.id := User.id old;
     User.clerkId := User.clerkId old;
     User.email := User.email old;
     User.username := User.username old;
     User.avatarUrl := User.avatarUrl old;
     User.createdAt := User.createdAt old;
     User.updatedAt := date;
     User.deletedAt := Some date |}.

(** The duplicate check that opens [syncUser]: [true] when the function
    returns early. *)
Definition alreadyProcessed (eventId : option string) : M bool :=
  match eventId with
  | Some ev =>
      if JsString.truthy ev then
        v <- redis_get (idempotencyKey ev) ;;
        ret (JsString.truthy_opt v)
      else ret false
  | None => ret false
  end.

Definition syncUser (data : SyncUserDto.t) : M unit :=
  let clerkId := SyncUserDto.clerkId data in
  let email := SyncUserDto.email data in
  let username := SyncUserDto.username data in
  let avatarUrl := SyncUserDto.avatarUrl data in
  let eventId := SyncUserDto.eventId data in
  skip <- alreadyProcessed eventId ;;
  if skip : bool then ret tt
  else
    try_catch
      (date <- new_Date ;;
       id <- uuidv7 ;;
       user <- prisma_user_upsert clerkId
                 (update_data email username avatarUrl date)
                 (create_data id clerkId email username avatarUrl date) ;;
       match eventId with
       | Some ev =>
           if JsString.truthy ev
           then redis_set (idempotencyKey ev) "1" 86400
           else ret tt
       | None => ret tt
       end)
      (fun error => throw error).

Definition deleteUser (clerkId eventId : string) : M unit :=
  let key := idempotencyKey eventId in
  v <- redis_get key ;;
  if JsString.truthy_opt v then ret tt
  else
    try_catch
      (date <- new_Date ;;
       prisma_user_update clerkId (delete_data date) ;;
       redis_set key "1" 86400)
      (fun error =>
         match code error with
         | StrCode c =>
             if String.eqb c "P2025"
             then redis_set key "1" 86400
             else throw error
         | _ => throw error
         end).

End IdentityService.

(* ===================================================================== *)
(** ** grpc/auth.handler.ts *)
(* ===================================================================== *)

Module AuthHandler.

Definition SESSION_CACHE_TTL : Z := 60.

(** [`session:${token.slice(-32)}`]. *)
Definition cacheKey (token : string) : string :=
  "session:" +:+ JsString.slice_last 32 token.

(** [clerkUser.emailAddresses.find(e => e.id ===
    clerkUser.primaryEmailAddressId)?.emailAddress]. *)
Definition primaryEmail (clerkUser : ClerkUser.t) : option string :=
  match
    List.find
      (fun e => match ClerkUser.primaryEmailAddressId clerkUser with
                | Some p => String.eqb (ClerkUser.id e) p
                | None => false
                end)
      (ClerkUser.emailAddresses clerkUser)
  with
  | Some e => Some (ClerkUser.emailAddress e)
  | None => None
  end.

(** [x || y] on strings. *)
Definition or_else (x : option string) (y : string) : string :=
  match x with
  | Some s => if JsString.truthy s then s else y
  | None => y
  end.

(** The JIT provisioning branch: the record is absent. *)
Definition jit_provision (clerkId : string) : M User.t :=
  clerkUser <- clerk_users_getUser clerkId ;;
  match primaryEmail clerkUser with
  | Some email =>
      if JsString.truthy email then
        IdentityService.syncUser
          {| SyncUserDto.clerkId := clerkId;
             SyncUserDto.email := email;
             SyncUserDto.username :=
               or_else (ClerkUser.username clerkUser)
                       ("user_" +:+ JsString.slice_first 8 clerkId);
             SyncUserDto.avatarUrl := Some (ClerkUser.imageUrl clerkUser);
             SyncUserDto.eventId := None |} ;;
        prisma_user_findUniqueOrThrow clerkId
      else throw (ConnectError "User has no email" FailedPrecondition)
  | None => throw (ConnectError "User has no email" FailedPrecondition)
  end.

(** The lane check that follows the ban check. *)
Definition scope_check (requiredScope : string) (user : User.t) : M unit :=
  if JsString.truthy requiredScope && JsString.startsWith "lane:" requiredScope
  then
    match nth_error (JsString.split ":" requiredScope) 1 with
    | Some laneId =>
        if JsString.truthy laneId then
          membership <- prisma_laneMember_findUnique laneId (User.id user) ;;
          match membership with
          | Some BANNED =>
              throw (ConnectError "You are banned from this lane" PermissionDenied)
          | _ => ret tt
          end
        else ret tt
    | None => ret tt
    end
  else ret tt.

(** The response built at step 5. *)
Definition response_of (user : User.t) (clerkId : string)
    : ValidateSessionResponse.t :=
  {| ValidateSessionResponse.valid := true;
     ValidateSessionResponse.userId := User.id user;
     ValidateSessionResponse.username := User.username user;
     ValidateSessionResponse.avatarUrl := or_else (User.avatarUrl user) "";
     ValidateSessionResponse.roles := [];
     ValidateSessionResponse.extraClaims :=
       [("email", User.email user); ("clerk_id", clerkId)] |}.

(** The [catch] block that closes [validateSession]. *)
Definition on_error (err : JsError) : M ValidateSessionResponse.t :=
  let errorMessage := message err in
  if JsString.includes "expired" errorMessage
     || JsString.includes "invalid" errorMessage
  then ret ValidateSessionResponse.invalid
  else throw (ConnectError "Internal Auth Error" Internal).

Section WithCodec.

Variable codec : Codec.

(** The body of the [try] block.  Its awaits are taken one after the other
    on one world: what other requests do to the stores while the handler is
    suspended at an await is not part of a run. *)
Definition verify_and_check (req : ValidateSessionRequest.t)
    : M ValidateSessionResponse.t :=
  let token := ValidateSessionRequest.token req in
  clerkId <- verifyToken token ;;
  found <- prisma_user_findUnique clerkId ;;
  user <- match found with
          | Some u => ret u
          | None => jit_provision clerkId
          end ;;
  match User.deletedAt user with
  | Some _ =>
      throw (ConnectError "User is globally suspended" PermissionDenied)
  | None =>
      scope_check (ValidateSessionRequest.requiredScope req) user ;;
      let response := response_of user clerkId in
      redis_set (cacheKey token) (toJsonString codec response)
                SESSION_CACHE_TTL ;;
      ret response
  end.

Definition validateSession (req : ValidateSessionRequest.t)
    : M ValidateSessionResponse.t :=
  let token := ValidateSessionRequest.token req in
  if negb (JsString.truthy token)
  then throw (ConnectError "Token is required" InvalidArgument)
  else
    cachedResult <- redis_get (cacheKey token) ;;
    match cachedResult with
    | Some cached =>
        if JsString.truthy cached
        then lift (fromJsonString codec cached)
        else try_catch (verify_and_check req) on_error
    | None => try_catch (verify_and_check req) on_error
    end.

End WithCodec.

End AuthHandler.

(* ===================================================================== *)
(** ** controllers/webhook.controller.ts *)
(* ===================================================================== *)

(** [interface ClerkUserEvent], with the fields the controller reads.  The
    [type] is kept as a string: the controller has a branch for types outside
    the three of the interface. *)
Module ClerkUserEvent.
Record Email := mkEmail { email_address : string; email_id : string }.
Record Data := mkData {
  id : string;
  email_addresses : list Email;
  username : option string;
  image_url : option string
}.
Record t := mk { data : Data; type : string }.
End ClerkUserEvent.

(** The three headers handed to [wh.verify]. *)
Record SvixHeaders := mkSvixHeaders {
  svix_id : string;
  svix_timestamp : string;
  svix_signature : string
}.

(** The [svix] library, not part of the sources: [new Webhook(secret)] throws
    or gives an object whose [verify(payload, headers)], at a given instant,
    throws or returns the event. *)
Record Svix := mkSvix {
  new_Webhook :
    string -> Result (Z -> string -> SvixHeaders -> Result ClerkUserEvent.t)
}.

Module WebhookController.

(** The part of an Express request the controller reads: the headers (lower
    case names) and the raw body kept by the JSON middleware. *)
Record Request := mkRequest {
  headers : gmap string string;
  rawBody : option string
}.

(** What [res.status(..).json(..)] is called with. *)
Inductive Body :=
| ErrorBody (error : string)
| SuccessBody.

Record Response := mkResponse { status : Z; json : Body }.

(** The business branch, the body of the second [try] block. *)
Definition process_event (evt : ClerkUserEvent.t) (svix_id : string)
    : M Response :=
  let type := ClerkUserEvent.type evt in
  let data := ClerkUserEvent.data evt in
  let clerkId := ClerkUserEvent.id data in
  if String.eqb type "user.created" || String.eqb type "user.updated" then
    let email :=
      match ClerkUserEvent.email_addresses data with
      | e :: _ => Some (ClerkUserEvent.email_address e)
      | [] => None
      end in
    let username :=
      AuthHandler.or_else (ClerkUserEvent.username data)
                          ("user_" +:+ JsString.slice_first 8 clerkId) in
    match email with
    | Some email =>
        if JsString.truthy email then
          IdentityService.syncUser
            {| SyncUserDto.clerkId := clerkId;
               SyncUserDto.email := email;
               SyncUserDto.username := username;
               SyncUserDto.avatarUrl := ClerkUserEvent.image_url data;
               SyncUserDto.eventId := Some svix_id |} ;;
          ret (mkResponse 200 SuccessBody)
        else ret (mkResponse 400 (ErrorBody "No email provided"))
    | None => ret (mkResponse 400 (ErrorBody "No email provided"))
    end
  else if String.eqb type "user.deleted" then
    IdentityService.deleteUser clerkId svix_id ;;
    ret (mkResponse 200 SuccessBody)
  else ret (mkResponse 200 SuccessBody).

(** [req.headers[name] as string]. *)
Definition header (req : Request) (name : string) : option string :=
  headers req !! name.

Definition as_string (o : option string) : string :=
  match o with Some s => s | None => "" end.

(** [handleClerkWebhook]; [env] is [process.env].  The value is the response
    sent; a [Throw] is a rejection of the handler's promise. *)
Definition handleClerkWebhook (svix : Svix) (env : gmap string string)
    (req : Request) : M Response :=
  let SIGNING_SECRET := env !! "CLERK_WEBHOOK_SECRET" in
  if negb (JsString.truthy_opt SIGNING_SECRET)
  then ret (mkResponse 500 (ErrorBody "Server configuration error"))
  else
    let svix_id := header req "svix-id" in
    let svix_timestamp := header req "svix-timestamp" in
    let svix_signature := header req "svix-signature" in
    if negb (JsString.truthy_opt svix_id)
       || negb (JsString.truthy_opt svix_timestamp)
       || negb (JsString.truthy_opt svix_signature)
    then ret (mkResponse 400 (ErrorBody "Missing headers"))
    else
      match rawBody req with
      | None => ret (mkResponse 500 (ErrorBody "Internal server error"))
      | Some payload =>
          wh <- lift (new_Webhook svix (as_string SIGNING_SECRET)) ;;
          date <- new_Date ;;
          match wh date payload
                   (mkSvixHeaders (as_string svix_id) (as_string svix_timestamp)
                                  (as_string svix_signature)) with
          | Throw _ => ret (mkResponse 400 (ErrorBody "Invalid signature"))
          | Ok evt =>
              try_catch
                (process_event evt (as_string svix_id))
                (fun err =>
                   ret (mkResponse 500 (ErrorBody "Internal server error")))
          end
      end.

End WebhookController.

(* ===================================================================== *)
(** ** lib/redis.ts: the connection URL *)
(* ===================================================================== *)

Module RedisConfig.

(** [getRedisUrl]; [env] is [process.env]. *)
Definition getRedisUrl (env : gmap string string) : Result string :=
  let otherwise :=
    match env !! "NODE_ENV" with
    | Some mode =>
        if String.eqb mode "production"
        then Throw (mkError "REDIS_URL is not defined in production environment"
                            NoCode)
        else Ok "redis://localhost:6379"
    | None => Ok "redis://localhost:6379"
    end in
  match env !! "REDIS_URL" with
  | Some url => if JsString.truthy url then Ok url else otherwise
  | None => otherwise
  end.

End RedisConfig.

(* ===================================================================== *)
(** ** grpc/server.ts: the logging interceptor *)
(* ===================================================================== *)

Module GrpcServer.

(** [loggingInterceptor]: [Date.now()] is read and the outcome is logged. *)
Definition loggingInterceptor {Req Res : Type} (next : Req -> M Res)
    (req : Req) : M Res :=
  start <- new_Date ;;
  try_catch (res <- next req ;; ret res) (fun err => throw err).

End GrpcServer.

(* ===================================================================== *)
(** ** Predicates used by the statements *)
(* ===================================================================== *)

(** No store call is rejected. *)
Definition fault_free (w : World) : Prop := forall n, faults w n = None.

(** A Processed-Event Marker for [eventId] is readable: what the duplicate
    checks of [syncUser] and [deleteUser] test. *)
Definition marker_live (w : World) (eventId : string) : bool :=
  JsString.truthy_opt (redis_read w (IdentityService.idempotencyKey eventId)).

(** The row that the upsert of [syncUser] leaves for [data] in [w]. *)
Definition upserted (data : SyncUserDto.t) (w : World) : User.t :=
  match users w !! SyncUserDto.clerkId data with
  | Some old =>
      IdentityService.update_data (SyncUserDto.email data)
        (SyncUserDto.username data) (SyncUserDto.avatarUrl data) (now w) old
  | None =>
      IdentityService.create_data (uuids w (uuid_count w))
        (SyncUserDto.clerkId data) (SyncUserDto.email data)
        (SyncUserDto.username data) (SyncUserDto.avatarUrl data) (now w)
  end.

(** Weakest precondition of a computation for a postcondition on its
    outcome and final world. *)
Definition wp {A} (m : M A) (Q : Result A -> World -> Prop) (w : World) : Prop :=
  Q (fst (m w)) (snd (m w)).

(** A computation that neither writes to Redis nor moves the clock. *)
Definition quiet {A} (m : M A) : Prop :=
  forall w, redis (snd (m w)) = redis w /\ now (snd (m w)) = now w.

(** What one run may have done to the session cache. *)
Definition cache_effect (codec : Codec) (token : string) (w : World)
    (r : Result ValidateSessionResponse.t) (w' : World) : Prop :=
  match r with
  | Ok resp =>
      if ValidateSessionResponse.valid resp
      then redis w' = redis w
           \/ redis w' =
                <[AuthHandler.cacheKey token :=
                    mkEntry (toJsonString codec resp)
                            (now w + AuthHandler.SESSION_CACHE_TTL * 1000)]>
                  (redis w)
      else redis w' = redis w
  | Throw _ => redis w' = redis w
  end.

(** A computation that leaves the [user] table as it is. *)
Definition keeps_users {A} (m : M A) : Prop :=
  forall w, users (snd (m w)) = users w.


(** The columns of a row other than the soft-delete mark and the update
    stamp. *)
Definition same_profile (u u' : User.t) : Prop :=
  User.id u' = User.id u
  /\ User.clerkId u' = User.clerkId u
  /\ User.email u' = User.email u
  /\ User.username u' = User.username u
  /\ User.avatarUrl u' = User.avatarUrl u
  /\ User.createdAt u' = User.createdAt u.

(** A delivery that passes every check of the controller before the
    business branch: the signing secret is configured, the three Svix headers
    are present, the raw body was kept, and the signature verifies to
    [evt]. *)
Definition verified_delivery (svix : Svix) (env : gmap string string)
    (req : WebhookController.Request) (w : World)
    (evt : ClerkUserEvent.t) (id : string) : Prop :=
  exists secret ts sig payload wh,
    env !! "CLERK_WEBHOOK_SECRET" = Some secret /\ secret <> ""
    /\ WebhookController.header req "svix-id" = Some id /\ id <> ""
    /\ WebhookController.header req "svix-timestamp" = Some ts /\ ts <> ""
    /\ WebhookController.header req "svix-signature" = Some sig /\ sig <> ""
    /\ WebhookController.rawBody req = Some payload
    /\ new_Webhook svix secret = Ok wh
    /\ wh (now w) payload (mkSvixHeaders id ts sig) = Ok evt.

(** The response of the controller's [catch] block. *)
Definition internal_error : WebhookController.Response :=
  WebhookController.mkResponse 500
    (WebhookController.ErrorBody "Internal server error").

(** The event types the controller hands to the reconciler. *)
Definition handled_type (type : string) : bool :=
  String.eqb type "user.created" || String.eqb type "user.updated"
  || String.eqb type "user.deleted".

(* ===================================================================== *)
(** ** Sample worlds for the scenarios of the specification *)
(* ===================================================================== *)

Module Sample.

Definition no_faults : nat -> option JsError := fun _ => None.

Definition uuid_stream (n : nat) : string :=
  "0192f0c1-0000-7000-8000-" +:+ NilEmpty.string_of_uint (Nat.to_uint n).

(** Tokens of 42 characters; the last 32 are the fingerprint. *)
Definition token_u1 : string := "eyJhbGciOi.u1u1u1u1u1u1u1u1.sig-0123456789".
Definition token_u2 : string := "eyJhbGciOi.u2u2u2u2u2u2u2u2.sig-9876543210".

Definition jwt_check (token : string) : Result string :=
  if String.eqb token token_u1 then Ok "u1"
  else if String.eqb token token_u2 then Ok "u2"
  else Throw (mkError "JWT signature is invalid." NoCode).

(** Clerk knows [u1] with a primary address and [u2] without any. *)
Definition profiles (clerkId : string) : Result ClerkUser.t :=
  if String.eqb clerkId "u1" then
    Ok {| ClerkUser.emailAddresses := [ClerkUser.mkEmail "idn_1" "a@x.com"];
          ClerkUser.primaryEmailAddressId := Some "idn_1";
          ClerkUser.username := None;
          ClerkUser.imageUrl := "https://img/u1.png" |}
  else if String.eqb clerkId "u2" then
    Ok {| ClerkUser.emailAddresses := [];
          ClerkUser.primaryEmailAddressId := None;
          ClerkUser.username := Some "second";
          ClerkUser.imageUrl := "" |}
  else Throw (mkError "Not Found" NoCode).

(** An empty deployment at instant [1000]. *)
Definition empty : World :=
  {| now := 1000; redis := ∅; users := ∅; laneMembers := ∅;
     verifier := jwt_check; provider := profiles;
     uuids := uuid_stream; uuid_count := 0;
     faults := no_faults; trace := [] |}.

Definition user_u1 (deletedAt : option Z) : User.t :=
  {| User.id := "0192f0c1-0000-7000-8000-9";
     User.clerkId := "u1";
     User.email := "old@x.com";
     User.username := "first";
     User.avatarUrl := None;
     User.createdAt := 10;
     User.updatedAt := 20;
     User.deletedAt := deletedAt |}.

(** [u1] is known and active. *)
Definition active : World := set_users {[ "u1" := user_u1 None ]} empty.

(** [u1] is known and soft-deleted. *)
Definition banned : World := set_users {[ "u1" := user_u1 (Some 500) ]} empty.

(** Redis rejects the first command it receives. *)
Definition redis_down : World :=
  mkWorld 1000 ∅ {[ "u1" := user_u1 None ]} ∅ jwt_check profiles uuid_stream 0
          (fun n => match n with
                    | O => Some (mkError "Command timed out" NoCode)
                    | S _ => None
                    end)
          [].

Definition dto (eventId : option string) : SyncUserDto.t :=
  {| SyncUserDto.clerkId := "u1";
     SyncUserDto.email := "a@x.com";
     SyncUserDto.username := "user_u1";
     SyncUserDto.avatarUrl := None;
     SyncUserDto.eventId := eventId |}.

Definition request (token : string) : ValidateSessionRequest.t :=
  {| ValidateSessionRequest.token := token;
     ValidateSessionRequest.requiredScope := "" |}.

Definition response_u1 : ValidateSessionResponse.t :=
  AuthHandler.response_of (user_u1 None) "u1".

(** A stand-in for the protobuf JSON codec, good enough for the sample
    responses: it prints the fields in order and reads back what it
    printed for [response_u1] and for the invalid response. *)
Definition print (r : ValidateSessionResponse.t) : string :=
  "{valid:" +:+ (if ValidateSessionResponse.valid r then "true" else "false")
  +:+ ",userId:" +:+ ValidateSessionResponse.userId r
  +:+ ",username:" +:+ ValidateSessionResponse.username r
  +:+ ",avatarUrl:" +:+ ValidateSessionResponse.avatarUrl r
  +:+ ",extraClaims:["
  +:+ String.concat ","
        (List.map (fun kv => fst kv +:+ "=" +:+ snd kv)
                  (ValidateSessionResponse.extraClaims r))
  +:+ "]}".

Definition parse (s : string) : Result ValidateSessionResponse.t :=
  if String.eqb s (print response_u1) then Ok response_u1
  else if String.eqb s (print ValidateSessionResponse.invalid)
  then Ok ValidateSessionResponse.invalid
  else Throw (mkError "cannot decode ValidateSessionResponse from JSON" NoCode).

Definition codec : Codec := mkCodec print parse.

End Sample.

(** Deliveries for the webhook controller. *)
Module WebhookSample.

Definition env : gmap string string :=
  {[ "CLERK_WEBHOOK_SECRET" := "whsec_c2VjcmV0" ]}.

Definition event (type : string) (emails : list ClerkUserEvent.Email)
    : ClerkUserEvent.t :=
  ClerkUserEvent.mk
    (ClerkUserEvent.mkData "u1" emails None (Some "https://img/u1.png"))
    type.

(** The signature ["v1,ok"] is the only one accepted; the payload names the
    event. *)
Definition check (date : Z) (payload : string) (hs : SvixHeaders)
    : Result ClerkUserEvent.t :=
  if negb (String.eqb (svix_signature hs) "v1,ok")
  then Throw (mkError "No matching signature found" NoCode)
  else if String.eqb payload "created"
  then Ok (event "user.created" [ClerkUserEvent.mkEmail "a@x.com" "idn_1"])
  else if String.eqb payload "created-without-email"
  then Ok (event "user.created" [])
  else if String.eqb payload "deleted"
  then Ok (event "user.deleted" [])
  else Ok (event "session.created" []).

Definition svix : Svix := mkSvix (fun secret => Ok check).

Definition delivery (id signature payload : string) : WebhookController.Request :=
  WebhookController.mkRequest
    {[ "svix-id" := id; "svix-timestamp" := "1700000000";
       "svix-signature" := signature ]}
    (Some payload).

(** The database rejects its first call. *)
Definition db_down : World :=
  mkWorld 1000 ∅ ∅ ∅ Sample.jwt_check Sample.profiles Sample.uuid_stream 0
          (fun n => match n with
                    | 1%nat => Some (mkError "Can't reach database server"
                                             (StrCode "P1001"))
                    | _ => None
                    end)
          [].

End WebhookSample.

(* ===================================================================== *)
(** ** Basic facts *)
(* ===================================================================== *)

Lemma idempotencyKey_inj (a b : string) :
  IdentityService.idempotencyKey a = IdentityService.idempotencyKey b -> a = b.
Proof.
  unfold IdentityService.idempotencyKey. intros H. simpl in H.
  now inversion H.
Qed.

(** Unfold the monadic plumbing of the identity service. *)
Ltac run_sync :=
  unfold IdentityService.syncUser, IdentityService.deleteUser,
    IdentityService.alreadyProcessed, bind, try_catch, ret, throw,
    redis_get, redis_set, prisma_user_upsert, prisma_user_update,
    new_Date, uuidv7, await in *; simpl in *.

(** Split on every [match] of a hypothesis, discarding impossible runs. *)
Ltac split_cases :=
  repeat match goal with
    | H : context [match ?x with _ => _ end] |- _ =>
        destruct x eqn:?; simpl in *; try congruence
    | H : (_, _) = (_, _) |- _ => inversion H; subst; clear H
    end.

(** Split on an innermost [match] of the goal. *)
Ltac split_goal :=
  repeat match goal with
    | |- context [match ?x with _ => _ end] =>
        lazymatch x with
        | context [match _ with _ => _ end] => fail
        | _ => destruct x eqn:?; simpl
        end
    end.

Ltac close_case :=
  unfold upserted, marker_live, redis_read in *; simpl in *;
  repeat match goal with
    | H : ?x = _ |- context [?x] => rewrite H
    end;
  try congruence; auto.

Lemma redis_read_record (c : Call) (w : World) (key : string) :
  redis_read (record c w) key = redis_read w key.
Proof. reflexivity. Qed.

(** An entry that cannot be read stays unreadable as time passes. *)
Lemma unreadable_later (w w' : World) (key : string) :
  redis w' !! key = redis w !! key ->
  now w <= now w' ->
  JsString.truthy_opt (redis_read w key) = false ->
  JsString.truthy_opt (redis_read w' key) = false.
Proof.
  unfold redis_read. intros -> Hle.
  destruct (redis w !! key) as [e|]; [|done].
  destruct (now w <? expiresAt e) eqn:Hlt.
  - intros Hv. destruct (now w' <? expiresAt e); [exact Hv | done].
  - intros _. apply Z.ltb_ge in Hlt.
    assert ((now w' <? expiresAt e) = false) as -> by (apply Z.ltb_ge; lia).
    done.
Qed.

(** What a successful, non-duplicate [syncUser] leaves behind. *)
Lemma syncUser_applied (data : SyncUserDto.t) (w w' : World) :
  (forall ev, SyncUserDto.eventId data = Some ev -> marker_live w ev = false) ->
  IdentityService.syncUser data w = (Ok tt, w') ->
  users w' = <[SyncUserDto.clerkId data := upserted data w]> (users w)
  /\ now w' = now w
  /\ redis w' =
       match SyncUserDto.eventId data with
       | Some ev =>
           if JsString.truthy ev
           then <[IdentityService.idempotencyKey ev :=
                    mkEntry "1" (now w + 86400 * 1000)]> (redis w)
           else redis w
       | None => redis w
       end.
Proof.
  intros Hfresh Hrun.
  destruct data as [c e u a ev]. simpl in *.
  destruct ev as [ev|]; [specialize (Hfresh ev eq_refl)|];
    run_sync; split_cases; close_case.
Qed.

(** A duplicate is answered from the ledger alone. *)
Lemma syncUser_duplicate (data : SyncUserDto.t) (ev : string) (w : World) :
  SyncUserDto.eventId data = Some ev ->
  JsString.truthy ev = true ->
  marker_live w ev = true ->
  IdentityService.syncUser data w =
    (match faults w (length (trace w)) with
     | Some e => Throw e
     | None => Ok tt
     end,
     record (RedisGet (IdentityService.idempotencyKey ev)) w).
Proof.
  intros Hev Ht Hlive. destruct data as [c e u a ev']. simpl in Hev.
  subst ev'.
  unfold marker_live in Hlive. run_sync. rewrite Ht.
  destruct (faults w (length (trace w))); [done|].
  simpl. rewrite redis_read_record, Hlive. done.
Qed.

(** Whatever a successful [syncUser] did to the table, it did it to the row
    of [clerkId], by the upsert. *)
Lemma syncUser_ok_users (data : SyncUserDto.t) (w w' : World) :
  IdentityService.syncUser data w = (Ok tt, w') ->
  users w' = users w
  \/ users w' = <[SyncUserDto.clerkId data := upserted data w]> (users w).
Proof.
  intros Hrun. destruct data as [c e u a ev]. simpl in *.
  destruct ev as [ev|]; run_sync; split_cases; close_case.
Qed.

(** [deleteUser] never moves the clock and writes no Redis key but the
    marker of its own event. *)
Lemma deleteUser_frame (clerkId eventId : string) (w : World) :
  now (snd (IdentityService.deleteUser clerkId eventId w)) = now w
  /\ forall key, key <> IdentityService.idempotencyKey eventId ->
       redis (snd (IdentityService.deleteUser clerkId eventId w)) !! key
       = redis w !! key.
Proof.
  run_sync. split_goal;
    (split; [reflexivity | intros key Hne; now rewrite ?lookup_insert_ne]).
Qed.

Lemma truthy_nonempty (s : string) : s <> "" -> JsString.truthy s = true.
Proof. destruct s; [congruence | reflexivity]. Qed.

(* ===================================================================== *)
(** ** Identity Reconciler *)
(* ===================================================================== *)

(** C3, as the code has it.  Idempotence on the delivery identifier holds
    inside the retention window of the marker: once [syncUser] has applied an
    event that carries a non-empty identifier whose marker was not yet in the
    ledger, applying the same event again less than 86400 s later leaves the
    table and the ledger exactly as the first application left them, namely
    one row for the external id and one marker, and the second call asks
    Redis for the marker and nothing else: it never reaches the record
    store. *)
Theorem syncUser_twice_is_once
    (data : SyncUserDto.t) (ev : string) (w w1 : World) (dt : Z) :
  SyncUserDto.eventId data = Some ev ->
  ev <> "" ->
  marker_live w ev = false ->
  IdentityService.syncUser data w = (Ok tt, w1) ->
  0 <= dt < 86400 * 1000 ->
  let key := IdentityService.idempotencyKey ev in
  let second := IdentityService.syncUser data (advance dt w1) in
  users w1 = <[SyncUserDto.clerkId data := upserted data w]> (users w)
  /\ redis w1 = <[key := mkEntry "1" (now w + 86400 * 1000)]> (redis w)
  /\ users (snd second) = users w1
  /\ redis (snd second) = redis w1
  /\ trace (snd second) = (trace w1 ++ [RedisGet key])%list
  /\ fst second = match faults w1 (length (trace w1)) with
                  | Some e => Throw e
                  | None => Ok tt
                  end.
Proof.
  intros Hev Hne Hfresh Hrun Hdt key second.
  pose proof (truthy_nonempty ev Hne) as Ht.
  destruct (syncUser_applied data w w1) as (Hu & Hnow & Hr); [|exact Hrun|].
  { intros ev' Hev'. rewrite Hev in Hev'. now injection Hev' as <-. }
  rewrite Hev, Ht in Hr.
  assert (marker_live (advance dt w1) ev = true) as Hlive.
  { unfold marker_live, redis_read, advance. simpl.
    rewrite Hr, lookup_insert_eq. simpl.
    assert ((now w1 + dt <? now w + 86400 * 1000) = true) as ->
      by (apply Z.ltb_lt; lia).
    reflexivity. }
  subst second.
  rewrite (syncUser_duplicate data ev (advance dt w1) Hev Ht Hlive).
  simpl. repeat split; assumption || reflexivity.
Qed.

Lemma syncUser_twice_is_once_witness :
  let w1 := snd (IdentityService.syncUser (Sample.dto (Some "ev1")) Sample.empty) in
  let second := IdentityService.syncUser (Sample.dto (Some "ev1")) (advance 5000 w1) in
  users w1 = <["u1" := upserted (Sample.dto (Some "ev1")) Sample.empty]> ∅
  /\ redis w1 = <["event:processed:ev1" := mkEntry "1" 86401000]> ∅
  /\ users (snd second) = users w1
  /\ redis (snd second) = redis w1
  /\ trace (snd second) = (trace w1 ++ [RedisGet "event:processed:ev1"])%list
  /\ fst second = Ok tt.
Proof.
  apply (syncUser_twice_is_once (Sample.dto (Some "ev1")) "ev1" Sample.empty
           (snd (IdentityService.syncUser (Sample.dto (Some "ev1")) Sample.empty))
           5000).
  - reflexivity.
  - discriminate.
  - reflexivity.
  - vm_compute. reflexivity.
  - lia.
Defined.

(** C3, as stated, fails: the marker is written with [EX 86400].  Apply the
    event [ev1] for [u1] to an empty deployment, then apply it again 86400 s
    later: both calls return normally, but the second finds no marker, runs
    the upsert and writes the marker anew, and the row it leaves differs from
    the row after the first application (its update stamp moved). *)
Lemma syncUser_twice_after_retention_counterexample :
  let data := Sample.dto (Some "ev1") in
  let first := IdentityService.syncUser data Sample.empty in
  let second := IdentityService.syncUser data (advance 86400000 (snd first)) in
  fst first = Ok tt
  /\ fst second = Ok tt
  /\ trace (snd second)
     = (trace (snd first)
          ++ [RedisGet "event:processed:ev1"; UserUpsert "u1";
              RedisSet "event:processed:ev1" "1" 86400])%list
  /\ users (snd second) !! "u1" <> users (snd first) !! "u1".
Proof.
  vm_compute. repeat split. discriminate.
Qed.

(** Applied twice in immediate succession, [syncUser] is idempotent whether
    or not the marker was there to begin with. *)
Lemma syncUser_back_to_back (data : SyncUserDto.t) (ev : string) (w w1 : World) :
  SyncUserDto.eventId data = Some ev ->
  ev <> "" ->
  IdentityService.syncUser data w = (Ok tt, w1) ->
  users (snd (IdentityService.syncUser data w1)) = users w1
  /\ redis (snd (IdentityService.syncUser data w1)) = redis w1.
Proof.
  intros Hev Hne Hrun.
  pose proof (truthy_nonempty ev Hne) as Ht.
  assert (marker_live w1 ev = true) as Hlive.
  { destruct (marker_live w ev) eqn:Hm.
    - rewrite (syncUser_duplicate data ev w Hev Ht Hm) in Hrun.
      injection Hrun as _ <-. exact Hm.
    - destruct (syncUser_applied data w w1) as (_ & Hnow & Hr); [|exact Hrun|].
      { intros ev' Hev'. rewrite Hev in Hev'. now injection Hev' as <-. }
      rewrite Hev, Ht in Hr.
      unfold marker_live, redis_read. rewrite Hr, lookup_insert_eq. simpl.
      assert ((now w1 <? now w + 86400 * 1000) = true) as ->
        by (apply Z.ltb_lt; lia).
      reflexivity. }
  rewrite (syncUser_duplicate data ev w1 Hev Ht Hlive). split; reflexivity.
Qed.

(** C4. Resurrection: a successful [syncUser] whose event identifier is
    absent or not yet in the ledger clears [deletedAt] of an existing
    soft-deleted row, keeping its internal id; hence [deleteUser] followed,
    at any later instant, by such a [syncUser] with another event identifier
    leaves the row of the external id active. *)
Theorem syncUser_resurrects (data : SyncUserDto.t) (w : World) :
  (forall ev, SyncUserDto.eventId data = Some ev -> marker_live w ev = false) ->
  let clerkId := SyncUserDto.clerkId data in
  (forall u w',
      users w !! clerkId = Some u ->
      User.deletedAt u <> None ->
      IdentityService.syncUser data w = (Ok tt, w') ->
      exists u', users w' !! clerkId = Some u'
                 /\ User.deletedAt u' = None
                 /\ User.id u' = User.id u)
  /\ (forall ev2 w1 dt w2,
         SyncUserDto.eventId data <> Some ev2 ->
         IdentityService.deleteUser clerkId ev2 w = (Ok tt, w1) ->
         0 <= dt ->
         IdentityService.syncUser data (advance dt w1) = (Ok tt, w2) ->
         exists u', users w2 !! clerkId = Some u'
                    /\ User.deletedAt u' = None).
Proof.
  intros Hfresh clerkId. split.
  - intros u w' Hu Hdel Hrun.
    destruct (syncUser_applied data w w' Hfresh Hrun) as (Hw' & _).
    exists (upserted data w). rewrite Hw', lookup_insert_eq.
    unfold upserted. fold clerkId. rewrite Hu. auto.
  - intros ev2 w1 dt w2 Hne Hdelete Hdt Hrun.
    destruct (deleteUser_frame clerkId ev2 w) as (Hnow & Hredis).
    rewrite Hdelete in Hnow, Hredis. simpl in Hnow, Hredis.
    destruct (syncUser_applied data (advance dt w1) w2) as (Hw2 & _);
      [|exact Hrun|].
    { intros ev Hev. unfold marker_live.
      apply (unreadable_later w).
      - simpl. apply Hredis. intros Heq.
        apply idempotencyKey_inj in Heq. congruence.
      - simpl. lia.
      - apply (Hfresh ev Hev). }
    exists (upserted data (advance dt w1)). rewrite Hw2, lookup_insert_eq.
    split; [reflexivity|]. unfold upserted.
    destruct (users (advance dt w1) !! SyncUserDto.clerkId data); reflexivity.
Qed.

Lemma syncUser_resurrects_witness :
  (exists u', users (snd (IdentityService.syncUser (Sample.dto (Some "ev3"))
                            Sample.banned)) !! "u1" = Some u'
              /\ User.deletedAt u' = None
              /\ User.id u' = User.id (Sample.user_u1 (Some 500)))
  /\ (exists u', users (snd (IdentityService.syncUser (Sample.dto (Some "ev3"))
                    (advance 7 (snd (IdentityService.deleteUser "u1" "ev2"
                                       Sample.active))))) !! "u1" = Some u'
                 /\ User.deletedAt u' = None).
Proof.
  split.
  - apply (proj1 (syncUser_resurrects (Sample.dto (Some "ev3")) Sample.banned
                    ltac:(intros ev _; reflexivity))
             (Sample.user_u1 (Some 500))).
    + reflexivity.
    + discriminate.
    + vm_compute. reflexivity.
  - apply (proj2 (syncUser_resurrects (Sample.dto (Some "ev3")) Sample.active
                    ltac:(intros ev _; reflexivity))
             "ev2"
             (snd (IdentityService.deleteUser "u1" "ev2" Sample.active)) 7).
    + discriminate.
    + vm_compute. reflexivity.
    + lia.
    + vm_compute. reflexivity.
Defined.

(** C5. Delete before create: when no row exists for the external id and
    the event's marker is not in the ledger, [deleteUser] returns normally
    (the store's "record not found" is swallowed), the table is untouched, so
    still without a row for that id, and the marker of the event is written
    with the 24 h retention.  The stores are assumed to answer. *)
Theorem deleteUser_before_create (clerkId eventId : string) (w : World) :
  users w !! clerkId = None ->
  marker_live w eventId = false ->
  fault_free w ->
  let key := IdentityService.idempotencyKey eventId in
  let r := IdentityService.deleteUser clerkId eventId w in
  fst r = Ok tt
  /\ users (snd r) = users w
  /\ users (snd r) !! clerkId = None
  /\ redis (snd r) = <[key := mkEntry "1" (now w + 86400 * 1000)]> (redis w)
  /\ marker_live (snd r) eventId = true
  /\ trace (snd r) =
       (trace w ++ [RedisGet key; UserUpdate clerkId; RedisSet key "1" 86400])%list.
Proof.
  intros Habsent Hfresh Hok key r. subst r key.
  unfold marker_live in *. run_sync.
  repeat (progress (rewrite ?Hok, ?redis_read_record, ?Hfresh, ?Habsent; simpl)).
  repeat split; auto.
  - unfold redis_read. simpl. rewrite lookup_insert_eq. simpl.
    assert ((now w <? now w + 86400 * 1000) = true) as ->
      by (apply Z.ltb_lt; lia).
    reflexivity.
  - now rewrite <- !app_assoc.
Qed.

Lemma deleteUser_before_create_witness :
  let r := IdentityService.deleteUser "u1" "ev2" Sample.empty in
  fst r = Ok tt
  /\ users (snd r) = ∅
  /\ users (snd r) !! "u1" = None
  /\ redis (snd r) = <["event:processed:ev2" := mkEntry "1" 86401000]> ∅
  /\ marker_live (snd r) "ev2" = true
  /\ trace (snd r) =
       [RedisGet "event:processed:ev2"; UserUpdate "u1";
        RedisSet "event:processed:ev2" "1" 86400].
Proof.
  apply (deleteUser_before_create "u1" "ev2" Sample.empty).
  - reflexivity.
  - reflexivity.
  - intros n. reflexivity.
Defined.

(** C9. Frame of the upsert: after a successful [syncUser] for an external
    id that already has a row, the row is still there with the same [id],
    [clerkId] and [createdAt]; it is either untouched (duplicate event) or
    the old row with [email], [username], [avatarUrl], [updatedAt] and
    [deletedAt] overwritten.  No other row changes. *)
Theorem syncUser_keeps_identity
    (data : SyncUserDto.t) (w w' : World) (u : User.t) :
  users w !! SyncUserDto.clerkId data = Some u ->
  IdentityService.syncUser data w = (Ok tt, w') ->
  (exists u',
      users w' !! SyncUserDto.clerkId data = Some u'
      /\ User.id u' = User.id u
      /\ User.createdAt u' = User.createdAt u
      /\ User.clerkId u' = User.clerkId u
      /\ (u' = u
          \/ u' = {| User.id := User.id u;
                     User.clerkId := User.clerkId u;
                     User.email := SyncUserDto.email data;
                     User.username := SyncUserDto.username data;
                     User.avatarUrl := SyncUserDto.avatarUrl data;
                     User.createdAt := User.createdAt u;
                     User.updatedAt := now w;
                     User.deletedAt := None |}))
  /\ (forall other, other <> SyncUserDto.clerkId data ->
                    users w' !! other = users w !! other).
Proof.
  intros Hu Hrun.
  destruct (syncUser_ok_users data w w' Hrun) as [Hsame | Hupsert].
  - rewrite Hsame. split; [|reflexivity].
    exists u. repeat split; auto.
  - rewrite Hupsert. split.
    + exists (upserted data w). rewrite lookup_insert_eq.
      unfold upserted. rewrite Hu. simpl. repeat split; auto.
    + intros other Hne. now rewrite lookup_insert_ne.
Qed.

Lemma syncUser_keeps_identity_witness :
  (exists u',
      users (snd (IdentityService.syncUser (Sample.dto (Some "ev1"))
                    Sample.active)) !! "u1" = Some u'
      /\ User.id u' = "0192f0c1-0000-7000-8000-9"
      /\ User.createdAt u' = 10
      /\ User.clerkId u' = "u1"
      /\ (u' = Sample.user_u1 None
          \/ u' = {| User.id := "0192f0c1-0000-7000-8000-9";
                     User.clerkId := "u1";
                     User.email := "a@x.com";
                     User.username := "user_u1";
                     User.avatarUrl := None;
                     User.createdAt := 10;
                     User.updatedAt := 1000;
                     User.deletedAt := None |}))
  /\ (forall other, other <> "u1" ->
        users (snd (IdentityService.syncUser (Sample.dto (Some "ev1"))
                      Sample.active)) !! other
        = users Sample.active !! other).
Proof.
  apply (syncUser_keeps_identity (Sample.dto (Some "ev1")) Sample.active
           (snd (IdentityService.syncUser (Sample.dto (Some "ev1")) Sample.active))
           (Sample.user_u1 None)).
  - reflexivity.
  - vm_compute. reflexivity.
Defined.

(* ===================================================================== *)
(** ** Reasoning rules for the monad *)
(* ===================================================================== *)

Section Rules.

Context {A B : Type}.

Lemma wp_bind (m : M A) (k : A -> M B) (Q : Result B -> World -> Prop) (w : World) :
  wp m (fun r w' => match r with
                    | Ok a => wp (k a) Q w'
                    | Throw e => Q (Throw e) w'
                    end) w ->
  wp (bind m k) Q w.
Proof. unfold wp, bind. destruct (m w) as [[a|e] w']; simpl; auto. Qed.

Lemma wp_try_catch (m : M A) (h : JsError -> M A)
    (Q : Result A -> World -> Prop) (w : World) :
  wp m (fun r w' => match r with
                    | Ok a => Q (Ok a) w'
                    | Throw e => wp (h e) Q w'
                    end) w ->
  wp (try_catch m h) Q w.
Proof. unfold wp, try_catch. destruct (m w) as [[a|e] w']; simpl; auto. Qed.

Lemma wp_mono (m : M A) (P Q : Result A -> World -> Prop) (w : World) :
  (forall r w', P r w' -> Q r w') -> wp m P w -> wp m Q w.
Proof. unfold wp. auto. Qed.

Lemma wp_quiet (m : M A) (Q : Result A -> World -> Prop) (w : World) :
  quiet m ->
  (forall r w', redis w' = redis w -> now w' = now w -> Q r w') ->
  wp m Q w.
Proof. unfold wp. intros Hq HQ. destruct (Hq w). auto. Qed.

Lemma quiet_ret (a : A) : quiet (ret a).
Proof. intros w. split; reflexivity. Qed.

Lemma quiet_throw (e : JsError) : quiet (@throw A e).
Proof. intros w. split; reflexivity. Qed.

Lemma quiet_lift (r : Result A) : quiet (lift r).
Proof. intros w. split; reflexivity. Qed.

Lemma quiet_bind (m : M A) (k : A -> M B) :
  quiet m -> (forall a, quiet (k a)) -> quiet (bind m k).
Proof.
  intros Hm Hk w. unfold bind. destruct (Hm w) as [Hr Hn].
  destruct (m w) as [[a|e] w']; simpl in *; [|auto].
  destruct (Hk a w') as [Hr' Hn']. split; congruence.
Qed.

Lemma quiet_try_catch (m : M A) (h : JsError -> M A) :
  quiet m -> (forall e, quiet (h e)) -> quiet (try_catch m h).
Proof.
  intros Hm Hh w. unfold try_catch. destruct (Hm w) as [Hr Hn].
  destruct (m w) as [[a|e] w']; simpl in *; [auto|].
  destruct (Hh e w') as [Hr' Hn']. split; congruence.
Qed.

Lemma quiet_await (c : Call) (run : World -> Result A * World) :
  (forall w, redis (snd (run w)) = redis w /\ now (snd (run w)) = now w) ->
  quiet (await c run).
Proof.
  intros Hrun w. unfold await.
  destruct (faults w (length (trace w))); simpl; [auto|].
  apply (Hrun (record c w)).
Qed.

Lemma quiet_ask (c : Call) (answer : World -> Result A) : quiet (ask c answer).
Proof. intros w. split; reflexivity. Qed.

End Rules.

Lemma quiet_redis_get (key : string) : quiet (redis_get key).
Proof. apply quiet_await. intros w. split; reflexivity. Qed.

Lemma quiet_findUnique (clerkId : string) : quiet (prisma_user_findUnique clerkId).
Proof. apply quiet_await. intros w. split; reflexivity. Qed.

Lemma quiet_findUniqueOrThrow (clerkId : string) :
  quiet (prisma_user_findUniqueOrThrow clerkId).
Proof.
  apply quiet_await. intros w. destruct (users w !! clerkId); split; reflexivity.
Qed.

Lemma quiet_upsert (clerkId : string) (update : User.t -> User.t) (create : User.t) :
  quiet (prisma_user_upsert clerkId update create).
Proof. apply quiet_await. intros w. split; reflexivity. Qed.

Lemma quiet_laneMember (laneId userId : string) :
  quiet (prisma_laneMember_findUnique laneId userId).
Proof. apply quiet_await. intros w. split; reflexivity. Qed.

Lemma quiet_new_Date : quiet new_Date.
Proof. intros w. split; reflexivity. Qed.

Lemma quiet_uuidv7 : quiet uuidv7.
Proof. intros w. split; reflexivity. Qed.

Create HintDb quiet.
#[local] Hint Resolve quiet_ret quiet_throw quiet_lift quiet_ask quiet_redis_get
  quiet_findUnique quiet_findUniqueOrThrow quiet_upsert quiet_laneMember
  quiet_new_Date quiet_uuidv7 : quiet.

(** A JIT sync carries no event identifier and so never writes a marker. *)
Lemma quiet_syncUser_jit (data : SyncUserDto.t) :
  SyncUserDto.eventId data = None -> quiet (IdentityService.syncUser data).
Proof.
  intros Hev. unfold IdentityService.syncUser, IdentityService.alreadyProcessed.
  rewrite Hev.
  apply quiet_bind; [auto with quiet|]. intros [|]; [auto with quiet|].
  apply quiet_try_catch; [|auto with quiet].
  repeat (apply quiet_bind; [auto with quiet|]; intros ?).
  auto with quiet.
Qed.

Lemma quiet_jit_provision (clerkId : string) :
  quiet (AuthHandler.jit_provision clerkId).
Proof.
  unfold AuthHandler.jit_provision, clerk_users_getUser.
  apply quiet_bind; [auto with quiet|]. intros clerkUser.
  destruct (AuthHandler.primaryEmail clerkUser) as [email|]; [|auto with quiet].
  destruct (JsString.truthy email); [|auto with quiet].
  apply quiet_bind; [|auto with quiet].
  now apply quiet_syncUser_jit.
Qed.

Lemma quiet_scope_check (requiredScope : string) (user : User.t) :
  quiet (AuthHandler.scope_check requiredScope user).
Proof.
  unfold AuthHandler.scope_check.
  destruct (_ && _); [|auto with quiet].
  destruct (nth_error _ 1) as [laneId|]; [|auto with quiet].
  destruct (JsString.truthy laneId); [|auto with quiet].
  apply quiet_bind; [auto with quiet|].
  intros [[|]|]; auto with quiet.
Qed.

Lemma quiet_on_error (err : JsError) : quiet (AuthHandler.on_error err).
Proof.
  unfold AuthHandler.on_error. destruct (_ || _); auto with quiet.
Qed.

Lemma quiet_verifyToken (token : string) : quiet (verifyToken token).
Proof. apply quiet_ask. Qed.

#[local] Hint Resolve quiet_verifyToken quiet_jit_provision quiet_scope_check
  quiet_on_error : quiet.

Lemma verify_and_check_cache_effect (codec : Codec)
    (req : ValidateSessionRequest.t) (w0 w : World) :
  redis w = redis w0 -> now w = now w0 ->
  wp (AuthHandler.verify_and_check codec req)
     (cache_effect codec (ValidateSessionRequest.token req) w0) w.
Proof.
  intros Hr Hn. unfold AuthHandler.verify_and_check.
  apply wp_bind, wp_quiet; [auto with quiet|].
  intros [clerkId|e] w1 Hr1 Hn1; [|simpl; congruence].
  apply wp_bind, wp_quiet; [auto with quiet|].
  intros [found|e] w2 Hr2 Hn2; [|simpl; congruence].
  apply wp_bind, wp_quiet; [destruct found; auto with quiet|].
  intros [user|e] w3 Hr3 Hn3; [|simpl; congruence].
  destruct (User.deletedAt user); [unfold wp; simpl; congruence|].
  apply wp_bind, wp_quiet; [auto with quiet|].
  intros [[]|e] w4 Hr4 Hn4; [|simpl; congruence].
  unfold wp, bind, redis_set, await, ret.
  destruct (faults w4 (length (trace w4))); simpl; [congruence|].
  right. congruence.
Qed.

Lemma validateSession_cache_effect (codec : Codec)
    (req : ValidateSessionRequest.t) (w : World) :
  wp (AuthHandler.validateSession codec req)
     (cache_effect codec (ValidateSessionRequest.token req) w) w.
Proof.
  set (token := ValidateSessionRequest.token req).
  unfold AuthHandler.validateSession. fold token.
  destruct (negb (JsString.truthy token)); [reflexivity|].
  apply wp_bind, wp_quiet; [auto with quiet|].
  intros [cached|e] w1 Hr1 Hn1; [|exact Hr1].
  assert (wp (try_catch (AuthHandler.verify_and_check codec req)
                        AuthHandler.on_error)
             (cache_effect codec token w) w1) as Hmiss.
  { apply wp_try_catch.
    apply (wp_mono _ (cache_effect codec token w));
      [|now apply verify_and_check_cache_effect].
    intros [resp|e] w2 H; [exact H|].
    apply wp_quiet; [auto with quiet|].
    intros [resp|e'] w3 Hr3 _; simpl in *.
    - destruct (ValidateSessionResponse.valid resp); [left|]; congruence.
    - congruence. }
  destruct cached as [cached|]; [|exact Hmiss].
  destruct (JsString.truthy cached); [|exact Hmiss].
  unfold wp, lift. simpl.
  destruct (fromJsonString codec cached) as [resp|e]; simpl; [|exact Hr1].
  destruct (ValidateSessionResponse.valid resp); [left|]; exact Hr1.
Qed.

(** C10. Only positive results are cached: a run of [validateSession]
    leaves Redis as it found it, unless it returns a [valid: true] response,
    in which case the only possible change is the entry of the token's
    fingerprint, set to the serialization of that very response with the
    60 s lifetime.  A thrown error or a [valid: false] answer never comes with
    a cache write. *)
Theorem only_valid_results_are_cached (codec : Codec)
    (req : ValidateSessionRequest.t) (w : World) :
  let token := ValidateSessionRequest.token req in
  let r := AuthHandler.validateSession codec req w in
  match fst r with
  | Ok resp =>
      if ValidateSessionResponse.valid resp
      then redis (snd r) = redis w
           \/ redis (snd r) =
                <[AuthHandler.cacheKey token :=
                    mkEntry (toJsonString codec resp) (now w + 60 * 1000)]>
                  (redis w)
      else redis (snd r) = redis w
  | Throw _ => redis (snd r) = redis w
  end.
Proof. exact (validateSession_cache_effect codec req w). Qed.

(** The run of [validateSession] on a cache hit. *)
Lemma validateSession_hit_run (codec : Codec) (req : ValidateSessionRequest.t)
    (w : World) (cached : string) :
  let token := ValidateSessionRequest.token req in
  JsString.truthy token = true ->
  faults w (length (trace w)) = None ->
  redis_read w (AuthHandler.cacheKey token) = Some cached ->
  JsString.truthy cached = true ->
  AuthHandler.validateSession codec req w =
    (fromJsonString codec cached, record (RedisGet (AuthHandler.cacheKey token)) w).
Proof.
  intros token Ht Hf Hread Hc.
  unfold AuthHandler.validateSession. fold token. rewrite Ht. simpl.
  unfold bind, redis_get, await. rewrite Hf. simpl.
  rewrite redis_read_record, Hread, Hc. reflexivity.
Qed.

(** C6. Cache hit: when the fingerprint of the credential has a live,
    non-empty cache entry and the cache read succeeds, [validateSession]
    returns the deserialization of exactly the stored string, which is the
    response most recently written when that string is its serialization and
    the codec round-trips, and the run consists of the single Redis [GET]: no
    call to the credential verifier, to the record store or to the provider,
    and no change to either store. *)
Theorem cache_hit_returns_cached (codec : Codec)
    (req : ValidateSessionRequest.t) (w : World) (cached : string) :
  let token := ValidateSessionRequest.token req in
  let r := AuthHandler.validateSession codec req w in
  token <> "" ->
  faults w (length (trace w)) = None ->
  redis_read w (AuthHandler.cacheKey token) = Some cached ->
  cached <> "" ->
  fst r = fromJsonString codec cached
  /\ (forall resp,
         cached = toJsonString codec resp ->
         fromJsonString codec (toJsonString codec resp) = Ok resp ->
         fst r = Ok resp)
  /\ trace (snd r) = (trace w ++ [RedisGet (AuthHandler.cacheKey token)])%list
  /\ redis (snd r) = redis w
  /\ users (snd r) = users w.
Proof.
  intros token r Ht Hf Hread Hc. subst r.
  rewrite (validateSession_hit_run codec req w cached);
    auto using truthy_nonempty.
  simpl. repeat split; auto.
  intros resp -> Hround. exact Hround.
Qed.

Lemma cache_hit_returns_cached_witness :
  let w := advance 59999
             (snd (AuthHandler.validateSession Sample.codec
                     (Sample.request Sample.token_u1) Sample.active)) in
  let r := AuthHandler.validateSession Sample.codec
             (Sample.request Sample.token_u1) w in
  fst r = Ok Sample.response_u1
  /\ trace (snd r) =
       (trace w ++ [RedisGet (AuthHandler.cacheKey Sample.token_u1)])%list
  /\ redis (snd r) = redis w
  /\ users (snd r) = users w.
Proof.
  intros w r.
  destruct (cache_hit_returns_cached Sample.codec
              (Sample.request Sample.token_u1) w
              (Sample.print Sample.response_u1))
    as (_ & Hresp & Htrace & Hredis & Husers).
  - discriminate.
  - reflexivity.
  - vm_compute. reflexivity.
  - discriminate.
  - split; [apply Hresp; reflexivity|].
    split; [exact Htrace|]. split; [exact Hredis | exact Husers].
Defined.

(** The run of [validateSession] when the cache read is rejected. *)
Lemma validateSession_cache_read_rejected (codec : Codec)
    (req : ValidateSessionRequest.t) (w : World) (e : JsError) :
  let token := ValidateSessionRequest.token req in
  JsString.truthy token = true ->
  faults w (length (trace w)) = Some e ->
  AuthHandler.validateSession codec req w =
    (Throw e, record (RedisGet (AuthHandler.cacheKey token)) w).
Proof.
  intros token Ht Hf.
  unfold AuthHandler.validateSession. fold token. rewrite Ht. simpl.
  unfold bind, redis_get, await. rewrite Hf. reflexivity.
Qed.

(** C8, as the code has it: the cache read sits outside the [try] block, so
    when it is rejected [validateSession] throws that very rejection to its
    caller; the run consists of the single Redis [GET], without credential
    verification or record lookup, and no store changes. *)
Theorem cache_read_failure_propagates (codec : Codec)
    (req : ValidateSessionRequest.t) (w : World) (e : JsError) :
  let token := ValidateSessionRequest.token req in
  let r := AuthHandler.validateSession codec req w in
  token <> "" ->
  faults w (length (trace w)) = Some e ->
  fst r = Throw e
  /\ trace (snd r) = (trace w ++ [RedisGet (AuthHandler.cacheKey token)])%list
  /\ redis (snd r) = redis w
  /\ users (snd r) = users w.
Proof.
  intros token r Ht Hf. subst r.
  rewrite (validateSession_cache_read_rejected codec req w e);
    auto using truthy_nonempty.
Qed.

Lemma cache_read_failure_propagates_witness :
  let r := AuthHandler.validateSession Sample.codec
             (Sample.request Sample.token_u1) Sample.redis_down in
  fst r = Throw (mkError "Command timed out" NoCode)
  /\ trace (snd r) = [RedisGet (AuthHandler.cacheKey Sample.token_u1)]
  /\ redis (snd r) = ∅
  /\ users (snd r) = users Sample.redis_down.
Proof.
  apply (cache_read_failure_propagates Sample.codec
           (Sample.request Sample.token_u1) Sample.redis_down).
  - discriminate.
  - reflexivity.
Defined.

(** C8, as stated, fails: with Redis rejecting the [GET] and a token that
    would verify for an active user, the caller gets the Redis error and the
    verifier is never asked. *)
Lemma cache_read_failure_counterexample :
  let r := AuthHandler.validateSession Sample.codec
             (Sample.request Sample.token_u1) Sample.redis_down in
  verifier Sample.redis_down Sample.token_u1 = Ok "u1"
  /\ fst r = Throw (mkError "Command timed out" NoCode)
  /\ ~ In (VerifyToken Sample.token_u1) (trace (snd r)).
Proof.
  vm_compute. repeat split. intros [H|[]]. discriminate.
Qed.

(** The most recent write wins the next read: after a run that wrote the
    cache and returned [resp], any request whose token has the same
    fingerprint, made while the entry is alive (60 s) and untouched, gets
    [resp] back from the single Redis [GET], whatever happened to the record
    of the user in between. *)
Lemma cached_response_is_replayed (codec : Codec)
    (req req2 : ValidateSessionRequest.t) (w0 w1 w2 : World)
    (resp : ValidateSessionResponse.t) :
  let key := AuthHandler.cacheKey (ValidateSessionRequest.token req) in
  AuthHandler.validateSession codec req w0 = (Ok resp, w1) ->
  redis w1 <> redis w0 ->
  fromJsonString codec (toJsonString codec resp) = Ok resp ->
  toJsonString codec resp <> "" ->
  ValidateSessionRequest.token req2 <> "" ->
  AuthHandler.cacheKey (ValidateSessionRequest.token req2) = key ->
  redis w2 !! key = redis w1 !! key ->
  now w2 < now w0 + 60 * 1000 ->
  faults w2 (length (trace w2)) = None ->
  AuthHandler.validateSession codec req2 w2 = (Ok resp, record (RedisGet key) w2).
Proof.
  intros key Hrun Hwrote Hround Hne Htok Hkey Hsame Hlive Hf.
  pose proof (validateSession_cache_effect codec req w0) as Heff.
  unfold wp in Heff. rewrite Hrun in Heff. simpl in Heff.
  destruct (ValidateSessionResponse.valid resp); [|contradiction].
  destruct Heff as [Heq | Heq]; [contradiction|].
  rewrite <- Hround, <- Hkey.
  apply validateSession_hit_run; auto using truthy_nonempty.
  unfold redis_read. rewrite Hkey, Hsame, Heq. fold key.
  rewrite lookup_insert_eq. simpl.
  assert ((now w2 <? now w0 + AuthHandler.SESSION_CACHE_TTL * 1000) = true) as ->
    by (apply Z.ltb_lt; unfold AuthHandler.SESSION_CACHE_TTL; lia).
  reflexivity.
Qed.

(** What the [catch] block makes of the three Connect errors raised inside
    the [try] block: none of their messages contains "expired" or "invalid". *)
Lemma on_error_suspended :
  AuthHandler.on_error (ConnectError "User is globally suspended" PermissionDenied)
  = throw (ConnectError "Internal Auth Error" Internal).
Proof. reflexivity. Qed.

Lemma on_error_no_email :
  AuthHandler.on_error (ConnectError "User has no email" FailedPrecondition)
  = throw (ConnectError "Internal Auth Error" Internal).
Proof. reflexivity. Qed.

Lemma on_error_lane_ban :
  AuthHandler.on_error (ConnectError "You are banned from this lane" PermissionDenied)
  = throw (ConnectError "Internal Auth Error" Internal).
Proof. reflexivity. Qed.

(** The same holds if the library did not prefix the message with the
    code. *)
Lemma on_error_raw_messages :
  AuthHandler.on_error (mkError "User is globally suspended" (ConnectCode PermissionDenied))
  = throw (ConnectError "Internal Auth Error" Internal)
  /\ AuthHandler.on_error (mkError "User has no email" (ConnectCode FailedPrecondition))
     = throw (ConnectError "Internal Auth Error" Internal).
Proof. split; reflexivity. Qed.

(** The run of [validateSession] on a cache miss. *)
Lemma validateSession_miss_run (codec : Codec) (req : ValidateSessionRequest.t)
    (w : World) :
  let token := ValidateSessionRequest.token req in
  JsString.truthy token = true ->
  faults w (length (trace w)) = None ->
  JsString.truthy_opt (redis_read w (AuthHandler.cacheKey token)) = false ->
  AuthHandler.validateSession codec req w =
    try_catch (AuthHandler.verify_and_check codec req) AuthHandler.on_error
              (record (RedisGet (AuthHandler.cacheKey token)) w).
Proof.
  intros token Ht Hf Hmiss.
  unfold AuthHandler.validateSession. fold token. rewrite Ht. simpl.
  unfold bind at 1. unfold redis_get, await. rewrite Hf. simpl.
  rewrite redis_read_record.
  destruct (redis_read w (AuthHandler.cacheKey token)) as [cached|];
    [|reflexivity].
  simpl in Hmiss. rewrite Hmiss. reflexivity.
Qed.

(** A verified credential whose record is soft-deleted: the
    [PermissionDenied] raised by the ban check is caught by the handler's own
    [catch] block and leaves as [Internal]. *)
Lemma banned_record_run (codec : Codec) (req : ValidateSessionRequest.t)
    (w : World) (sub : string) (u : User.t) (t : Z) :
  let token := ValidateSessionRequest.token req in
  JsString.truthy token = true ->
  fault_free w ->
  JsString.truthy_opt (redis_read w (AuthHandler.cacheKey token)) = false ->
  verifier w token = Ok sub ->
  users w !! sub = Some u ->
  User.deletedAt u = Some t ->
  AuthHandler.validateSession codec req w =
    (Throw (ConnectError "Internal Auth Error" Internal),
     record (UserFindUnique sub)
       (record (VerifyToken token)
          (record (RedisGet (AuthHandler.cacheKey token)) w))).
Proof.
  intros token Ht Hff Hmiss Hver Hu Hdel.
  rewrite validateSession_miss_run; auto. fold token.
  unfold try_catch, AuthHandler.verify_and_check. fold token.
  unfold bind at 1. unfold verifyToken, ask. simpl. rewrite Hver.
  unfold bind at 1. unfold prisma_user_findUnique, await. simpl.
  rewrite Hff. simpl. rewrite Hu.
  unfold bind at 1. unfold ret at 1. rewrite Hdel.
  unfold throw at 1. rewrite on_error_suspended. reflexivity.
Qed.

(** A verified credential without record whose provider profile has no
    primary email: the [FailedPrecondition] raised by the JIT branch is caught
    by the handler's own [catch] block and leaves as [Internal]. *)
Lemma no_email_run (codec : Codec) (req : ValidateSessionRequest.t)
    (w : World) (sub : string) (clerkUser : ClerkUser.t) :
  let token := ValidateSessionRequest.token req in
  JsString.truthy token = true ->
  fault_free w ->
  JsString.truthy_opt (redis_read w (AuthHandler.cacheKey token)) = false ->
  verifier w token = Ok sub ->
  users w !! sub = None ->
  provider w sub = Ok clerkUser ->
  JsString.truthy_opt (AuthHandler.primaryEmail clerkUser) = false ->
  AuthHandler.validateSession codec req w =
    (Throw (ConnectError "Internal Auth Error" Internal),
     record (ClerkGetUser sub)
       (record (UserFindUnique sub)
          (record (VerifyToken token)
             (record (RedisGet (AuthHandler.cacheKey token)) w)))).
Proof.
  intros token Ht Hff Hmiss Hver Hu Hprov Hmail.
  rewrite validateSession_miss_run; auto. fold token.
  unfold try_catch, AuthHandler.verify_and_check. fold token.
  unfold bind at 1. unfold verifyToken, ask. simpl. rewrite Hver.
  unfold bind at 1. unfold prisma_user_findUnique, await. simpl.
  rewrite Hff. simpl. rewrite Hu.
  unfold bind at 1. unfold AuthHandler.jit_provision.
  unfold bind at 1. unfold clerk_users_getUser, ask. simpl. rewrite Hprov.
  destruct (AuthHandler.primaryEmail clerkUser) as [email|]; simpl in Hmail.
  - rewrite Hmail. unfold throw at 1. rewrite on_error_no_email. reflexivity.
  - unfold throw at 1. rewrite on_error_no_email. reflexivity.
Qed.

(** C1, at the failing input.  The claim asks for a [PermissionDenied]
    outcome whenever the checks meet a soft-deleted record.  For the token of
    [u1], a cold cache and the row of [u1] soft-deleted at instant 500, the
    handler does raise [PermissionDenied], but inside its own [try] block:
    the [catch] block finds neither "expired" nor "invalid" in the message
    and throws [Internal] instead. *)
Theorem banned_user_gets_internal_error :
  let r := AuthHandler.validateSession Sample.codec
             (Sample.request Sample.token_u1) Sample.banned in
  users Sample.banned !! "u1" = Some (Sample.user_u1 (Some 500))
  /\ fst r = Throw (ConnectError "Internal Auth Error" Internal)
  /\ fst r <> Throw (ConnectError "User is globally suspended" PermissionDenied)
  /\ trace (snd r) =
       [RedisGet (AuthHandler.cacheKey Sample.token_u1);
        VerifyToken Sample.token_u1; UserFindUnique "u1"].
Proof.
  cbv zeta.
  rewrite (banned_record_run Sample.codec (Sample.request Sample.token_u1)
             Sample.banned "u1" (Sample.user_u1 (Some 500)) 500);
    try reflexivity; [|intros n; reflexivity].
  repeat split. discriminate.
Qed.

(** C2, at the failing input.  The claim asks for a [FailedPrecondition]
    error when JIT provisioning meets a profile without primary email.  For
    the token of [u2], a cold cache, no row for [u2] and Clerk's profile of
    [u2] without any address, the handler does raise [FailedPrecondition],
    but inside its own [try] block: the [catch] block turns it into
    [Internal].  Nothing is provisioned. *)
Theorem missing_email_gets_internal_error :
  let r := AuthHandler.validateSession Sample.codec
             (Sample.request Sample.token_u2) Sample.empty in
  fst r = Throw (ConnectError "Internal Auth Error" Internal)
  /\ fst r <> Throw (ConnectError "User has no email" FailedPrecondition)
  /\ fst r <> Ok ValidateSessionResponse.invalid
  /\ users (snd r) = ∅
  /\ trace (snd r) =
       [RedisGet (AuthHandler.cacheKey Sample.token_u2);
        VerifyToken Sample.token_u2; UserFindUnique "u2"; ClerkGetUser "u2"].
Proof.
  cbv zeta.
  rewrite (no_email_run Sample.codec (Sample.request Sample.token_u2)
             Sample.empty "u2"
             {| ClerkUser.emailAddresses := [];
                ClerkUser.primaryEmailAddressId := None;
                ClerkUser.username := Some "second";
                ClerkUser.imageUrl := "" |});
    try reflexivity; [|intros n; reflexivity].
  repeat split; discriminate.
Qed.

(* ===================================================================== *)
(** ** The cache key *)
(* ===================================================================== *)

Lemma len_append (a b : string) :
  JsString.len (a +:+ b) = (JsString.len a + JsString.len b)%nat.
Proof. induction a as [|c a IH]; simpl; [reflexivity | now rewrite IH]. Qed.

Lemma len_drop (n : nat) (s : string) :
  JsString.len (JsString.drop n s) = (JsString.len s - n)%nat.
Proof.
  revert s. induction n as [|n IH]; intros [|c s]; simpl; auto.
Qed.

Lemma take_drop (n : nat) (s : string) :
  JsString.take n s +:+ JsString.drop n s = s.
Proof.
  revert s. induction n as [|n IH]; intros [|c s]; simpl; auto.
  change (String c (JsString.take n s +:+ JsString.drop n s) = String c s).
  f_equal. apply IH.
Qed.

(** C7, as the code has it: the cache key is ["session:"] followed by the
    last [min 32 (length token)] characters of the credential.  Its length
    is [8 + min 32 (length token)], at most 40, and exactly 40 from 32
    characters on; the part taken from the credential is a proper suffix
    exactly when the credential has more than 32 characters, and is the whole
    credential otherwise. *)
Theorem cacheKey_shape (token : string) :
  let suffix := JsString.slice_last 32 token in
  AuthHandler.cacheKey token = "session:" +:+ suffix
  /\ (exists pre, token = pre +:+ suffix)
  /\ JsString.len suffix = Nat.min 32 (JsString.len token)
  /\ JsString.len (AuthHandler.cacheKey token)
     = (8 + Nat.min 32 (JsString.len token))%nat
  /\ ((32 <= JsString.len token)%nat ->
      JsString.len (AuthHandler.cacheKey token) = 40%nat)
  /\ ((32 < JsString.len token)%nat -> suffix <> token)
  /\ ((JsString.len token <= 32)%nat -> suffix = token).
Proof.
  intros suffix.
  assert (JsString.len suffix = Nat.min 32 (JsString.len token)) as Hlen.
  { unfold suffix, JsString.slice_last. rewrite len_drop. lia. }
  assert (JsString.len (AuthHandler.cacheKey token)
          = (8 + Nat.min 32 (JsString.len token))%nat) as Hkey.
  { unfold AuthHandler.cacheKey. fold suffix. rewrite len_append, Hlen.
    reflexivity. }
  split; [reflexivity|].
  split.
  { exists (JsString.take (JsString.len token - 32) token).
    unfold suffix, JsString.slice_last. now rewrite take_drop. }
  split; [exact Hlen|]. split; [exact Hkey|].
  split; [intros H; rewrite Hkey; lia|].
  split.
  - intros H Heq. rewrite Heq in Hlen. lia.
  - intros H. unfold suffix, JsString.slice_last.
    replace (JsString.len token - 32)%nat with 0%nat by lia. reflexivity.
Qed.

Lemma cacheKey_shape_witness :
  JsString.len (AuthHandler.cacheKey Sample.token_u1) = 40%nat
  /\ JsString.slice_last 32 Sample.token_u1 <> Sample.token_u1
  /\ JsString.slice_last 32 "abc" = "abc".
Proof.
  pose proof (cacheKey_shape Sample.token_u1) as (_ & _ & _ & _ & H40 & Hne & _).
  pose proof (cacheKey_shape "abc") as (_ & _ & _ & _ & _ & _ & Hall).
  split; [apply H40; vm_compute; lia|].
  split; [apply Hne; vm_compute; lia | apply Hall; vm_compute; lia].
Defined.

(** C7, as stated, fails: the keys of two short credentials differ in
    length, the key of a short credential embeds the credential whole, and a
    40-character credential that starts with ["session:"] is its own key. *)
Lemma cacheKey_short_token_counterexample :
  ~ (exists n, forall token, token <> "" ->
                 JsString.len (AuthHandler.cacheKey token) = n)
  /\ ~ (forall token, token <> "" -> JsString.slice_last 32 token <> token)
  /\ ~ (forall token, token <> "" -> AuthHandler.cacheKey token <> token).
Proof.
  split; [|split].
  - intros [n H].
    pose proof (H "abc" ltac:(discriminate)) as H3.
    pose proof (H "abcd" ltac:(discriminate)) as H4.
    vm_compute in H3, H4. congruence.
  - intros H. apply (H "abc"); [discriminate | reflexivity].
  - intros H.
    apply (H "session:0123456789abcdef0123456789abcdef");
      [discriminate | reflexivity].
Qed.

(* ===================================================================== *)
(** ** Identity Reconciler: further properties *)
(* ===================================================================== *)

Lemma deleteUser_duplicate_run (clerkId eventId : string) (w : World) :
  marker_live w eventId = true ->
  IdentityService.deleteUser clerkId eventId w =
    (match faults w (length (trace w)) with
     | Some e => Throw e
     | None => Ok tt
     end,
     record (RedisGet (IdentityService.idempotencyKey eventId)) w).
Proof.
  intros Hlive. unfold marker_live in Hlive. run_sync.
  destruct (faults w (length (trace w))); [reflexivity|].
  simpl. rewrite redis_read_record, Hlive. reflexivity.
Qed.

(** X1. A delete whose event already has a marker is answered from the
    ledger alone: the run is the single Redis [GET], it returns normally when
    the read succeeds (and throws the read's rejection otherwise), and
    neither the table nor the ledger changes. *)
Theorem deleteUser_duplicate (clerkId eventId : string) (w : World) :
  marker_live w eventId = true ->
  let r := IdentityService.deleteUser clerkId eventId w in
  fst r = match faults w (length (trace w)) with
          | Some e => Throw e
          | None => Ok tt
          end
  /\ users (snd r) = users w
  /\ redis (snd r) = redis w
  /\ trace (snd r)
     = (trace w ++ [RedisGet (IdentityService.idempotencyKey eventId)])%list.
Proof.
  intros Hlive r. subst r. rewrite (deleteUser_duplicate_run _ _ _ Hlive).
  simpl. auto.
Qed.

Lemma deleteUser_duplicate_witness :
  let w := snd (IdentityService.deleteUser "u1" "ev2" Sample.active) in
  let r := IdentityService.deleteUser "u1" "ev2" w in
  fst r = Ok tt
  /\ users (snd r) = users w
  /\ redis (snd r) = redis w
  /\ trace (snd r) = (trace w ++ [RedisGet "event:processed:ev2"])%list.
Proof.
  apply (deleteUser_duplicate "u1" "ev2"
           (snd (IdentityService.deleteUser "u1" "ev2" Sample.active))).
  vm_compute. reflexivity.
Defined.

(** X2. Soft delete: with the stores answering and no marker for the event,
    [deleteUser] on an existing row returns normally, stamps [deletedAt] with
    the current instant, keeps the row's id, external id, email, username,
    avatar and creation date, leaves every other row alone and writes the
    marker. *)
Theorem deleteUser_soft_deletes (clerkId eventId : string) (w : World) (u : User.t) :
  users w !! clerkId = Some u ->
  marker_live w eventId = false ->
  fault_free w ->
  let r := IdentityService.deleteUser clerkId eventId w in
  fst r = Ok tt
  /\ (exists u', users (snd r) !! clerkId = Some u'
                 /\ User.deletedAt u' = Some (now w)
                 /\ same_profile u u')
  /\ (forall other, other <> clerkId ->
                    users (snd r) !! other = users w !! other)
  /\ marker_live (snd r) eventId = true.
Proof.
  intros Hu Hfresh Hok r. subst r.
  unfold marker_live in *. run_sync.
  repeat (progress (rewrite ?Hok, ?redis_read_record, ?Hfresh, ?Hu; simpl)).
  split; [reflexivity|]. split; [|split].
  - eexists. rewrite lookup_insert_eq. split; [reflexivity|].
    split; [reflexivity|]. repeat split.
  - intros other Hne. now rewrite lookup_insert_ne.
  - unfold redis_read. simpl. rewrite lookup_insert_eq. simpl.
    assert ((now w <? now w + 86400 * 1000) = true) as ->
      by (apply Z.ltb_lt; lia).
    reflexivity.
Qed.

Lemma deleteUser_soft_deletes_witness :
  let r := IdentityService.deleteUser "u1" "ev2" Sample.active in
  fst r = Ok tt
  /\ (exists u', users (snd r) !! "u1" = Some u'
                 /\ User.deletedAt u' = Some 1000
                 /\ same_profile (Sample.user_u1 None) u')
  /\ (forall other, other <> "u1" ->
                    users (snd r) !! other = users Sample.active !! other)
  /\ marker_live (snd r) "ev2" = true.
Proof.
  apply (deleteUser_soft_deletes "u1" "ev2" Sample.active (Sample.user_u1 None)).
  - reflexivity.
  - reflexivity.
  - intros n. reflexivity.
Defined.

Lemma syncUser_throw_keeps_redis (data : SyncUserDto.t) (w w' : World)
    (e : JsError) :
  IdentityService.syncUser data w = (Throw e, w') -> redis w' = redis w.
Proof.
  destruct data as [c em u a ev]. simpl. intros Hrun.
  destruct ev as [ev|]; run_sync; split_cases; reflexivity.
Qed.

Lemma deleteUser_throw_keeps_redis (clerkId eventId : string) (w w' : World)
    (e : JsError) :
  IdentityService.deleteUser clerkId eventId w = (Throw e, w') ->
  redis w' = redis w.
Proof. intros Hrun. run_sync. split_cases; reflexivity. Qed.

(** X3. A failed application is not recorded: when [syncUser] or
    [deleteUser] throws, the ledger (and the whole of Redis) is as it was, so
    a redelivery of the event is applied again. *)
Theorem failed_application_leaves_ledger (w : World) :
  (forall data e w',
      IdentityService.syncUser data w = (Throw e, w') -> redis w' = redis w)
  /\ (forall clerkId eventId e w',
         IdentityService.deleteUser clerkId eventId w = (Throw e, w') ->
         redis w' = redis w).
Proof.
  split.
  - intros data e w'. apply syncUser_throw_keeps_redis.
  - intros c ev e w'. apply deleteUser_throw_keeps_redis.
Qed.

Lemma failed_application_leaves_ledger_witness :
  redis (snd (IdentityService.syncUser (Sample.dto (Some "ev1"))
                WebhookSample.db_down)) = ∅
  /\ redis (snd (IdentityService.deleteUser "u1" "ev2" WebhookSample.db_down)) = ∅.
Proof.
  split.
  - apply (proj1 (failed_application_leaves_ledger WebhookSample.db_down)
             (Sample.dto (Some "ev1"))
             (mkError "Can't reach database server" (StrCode "P1001"))).
    vm_compute. reflexivity.
  - apply (proj2 (failed_application_leaves_ledger WebhookSample.db_down)
             "u1" "ev2"
             (mkError "Can't reach database server" (StrCode "P1001"))).
    vm_compute. reflexivity.
Defined.

(** X4. The reconciler touches one row and removes none: whatever the
    outcome, [syncUser] and [deleteUser] leave the rows of every other
    external id as they were; [syncUser] never removes the row of its own id,
    and [deleteUser] neither creates nor removes it. *)
Theorem reconciler_touches_one_row (w : World) :
  (forall data,
      let w' := snd (IdentityService.syncUser data w) in
      (forall other, other <> SyncUserDto.clerkId data ->
                     users w' !! other = users w !! other)
      /\ (is_Some (users w !! SyncUserDto.clerkId data) ->
          is_Some (users w' !! SyncUserDto.clerkId data)))
  /\ (forall clerkId eventId,
         let w' := snd (IdentityService.deleteUser clerkId eventId w) in
         (forall other, other <> clerkId ->
                        users w' !! other = users w !! other)
         /\ (is_Some (users w' !! clerkId) <-> is_Some (users w !! clerkId))).
Proof.
  split.
  - intros [c em u a ev]. simpl.
    destruct ev as [ev|]; run_sync; split_goal;
      (split; [intros other Hne; now rewrite ?lookup_insert_ne
              | intros Hsome; rewrite ?lookup_insert_eq; eauto]).
  - intros c ev. run_sync. split_goal;
      (split; [intros other Hne; now rewrite ?lookup_insert_ne
              | rewrite ?lookup_insert_eq;
                repeat match goal with H : users _ !! _ = _ |- _ => rewrite H end;
                split; eauto]).
Qed.

Lemma reconciler_touches_one_row_witness :
  is_Some (users (snd (IdentityService.syncUser (Sample.dto None) Sample.active))
             !! "u1")
  /\ is_Some (users (snd (IdentityService.deleteUser "u1" "ev2" Sample.active))
                !! "u1").
Proof.
  split.
  - apply (proj2 (proj1 (reconciler_touches_one_row Sample.active)
                    (Sample.dto None))).
    eexists. reflexivity.
  - apply (proj2 (proj2 (reconciler_touches_one_row Sample.active) "u1" "ev2")).
    eexists. reflexivity.
Defined.

(** What a successful [deleteUser] leaves in the ledger for a fresh event. *)
Lemma deleteUser_ok_marker (clerkId eventId : string) (w w' : World) :
  marker_live w eventId = false ->
  IdentityService.deleteUser clerkId eventId w = (Ok tt, w') ->
  now w' = now w
  /\ redis w' = <[IdentityService.idempotencyKey eventId :=
                    mkEntry "1" (now w + 86400 * 1000)]> (redis w).
Proof.
  intros Hfresh Hrun. run_sync. split_cases; close_case.
Qed.

(** The row a successful, non-duplicate [deleteUser] leaves for an
    existing record when the stores answer. *)
Lemma deleteUser_ok_row (clerkId eventId : string) (w w' : World) (u : User.t) :
  users w !! clerkId = Some u ->
  marker_live w eventId = false ->
  fault_free w ->
  IdentityService.deleteUser clerkId eventId w = (Ok tt, w') ->
  users w' !! clerkId = Some (IdentityService.delete_data (now w) u).
Proof.
  intros Hu Hfresh Hok. unfold marker_live in Hfresh. run_sync.
  repeat (progress (rewrite ?Hok, ?redis_read_record, ?Hfresh, ?Hu; simpl)).
  intros [= <-]. simpl. apply lookup_insert_eq.
Qed.

(** X5. Applied last, a delete wins: after a successful [syncUser], a
    successful [deleteUser] with an event that has no marker, the stores
    answering, leaves the row of the external id soft-deleted, with the
    profile that [syncUser] wrote. *)
Theorem delete_after_sync_wins
    (data : SyncUserDto.t) (eventId : string) (w w1 w2 : World) (dt : Z) :
  (forall ev, SyncUserDto.eventId data = Some ev -> marker_live w ev = false) ->
  IdentityService.syncUser data w = (Ok tt, w1) ->
  marker_live (advance dt w1) eventId = false ->
  fault_free w1 ->
  IdentityService.deleteUser (SyncUserDto.clerkId data) eventId (advance dt w1)
    = (Ok tt, w2) ->
  exists u', users w2 !! SyncUserDto.clerkId data = Some u'
             /\ User.deletedAt u' = Some (now w + dt)
             /\ same_profile (upserted data w) u'.
Proof.
  intros Hfresh Hsync Hfresh2 Hok Hdel.
  destruct (syncUser_applied data w w1 Hfresh Hsync) as (Hu & Hnow & _).
  assert (users (advance dt w1) !! SyncUserDto.clerkId data
          = Some (upserted data w)) as Hrow
    by (simpl; rewrite Hu; apply lookup_insert_eq).
  rewrite (deleteUser_ok_row _ _ _ _ _ Hrow Hfresh2 Hok Hdel).
  eexists. split; [reflexivity|]. simpl. rewrite Hnow.
  split; [reflexivity | repeat split].
Qed.

Lemma delete_after_sync_wins_witness :
  exists u',
    users (snd (IdentityService.deleteUser "u1" "ev2"
                  (advance 3 (snd (IdentityService.syncUser
                                     (Sample.dto (Some "ev1")) Sample.empty)))))
      !! "u1" = Some u'
    /\ User.deletedAt u' = Some 1003
    /\ same_profile (upserted (Sample.dto (Some "ev1")) Sample.empty) u'.
Proof.
  apply (delete_after_sync_wins (Sample.dto (Some "ev1")) "ev2" Sample.empty
           (snd (IdentityService.syncUser (Sample.dto (Some "ev1")) Sample.empty))
           (snd (IdentityService.deleteUser "u1" "ev2"
                   (advance 3 (snd (IdentityService.syncUser
                                      (Sample.dto (Some "ev1")) Sample.empty)))))
           3).
  - intros ev _. reflexivity.
  - vm_compute. reflexivity.
  - vm_compute. reflexivity.
  - intros n. reflexivity.
  - vm_compute. reflexivity.
Defined.

(** X6. One ledger for both operations: the marker key depends on the
    event identifier only, so once [deleteUser] has consumed an identifier, a
    [syncUser] that carries the same identifier within the retention window
    is skipped as a duplicate: it leaves the table as the delete left it. *)
Theorem sync_after_delete_same_event_is_skipped
    (data : SyncUserDto.t) (eventId : string) (w w1 : World) (dt : Z) :
  SyncUserDto.eventId data = Some eventId ->
  eventId <> "" ->
  marker_live w eventId = false ->
  IdentityService.deleteUser (SyncUserDto.clerkId data) eventId w = (Ok tt, w1) ->
  0 <= dt < 86400 * 1000 ->
  let second := IdentityService.syncUser data (advance dt w1) in
  users (snd second) = users w1
  /\ redis (snd second) = redis w1
  /\ trace (snd second)
     = (trace w1 ++ [RedisGet (IdentityService.idempotencyKey eventId)])%list.
Proof.
  intros Hev Hne Hfresh Hdel Hdt second.
  destruct (deleteUser_ok_marker _ _ _ _ Hfresh Hdel) as (Hnow & Hr).
  assert (marker_live (advance dt w1) eventId = true) as Hlive.
  { unfold marker_live, redis_read, advance. simpl.
    rewrite Hr, lookup_insert_eq. simpl.
    assert ((now w1 + dt <? now w + 86400 * 1000) = true) as ->
      by (apply Z.ltb_lt; lia).
    reflexivity. }
  subst second.
  rewrite (syncUser_duplicate data eventId (advance dt w1) Hev
             (truthy_nonempty eventId Hne) Hlive).
  simpl. auto.
Qed.

Lemma sync_after_delete_same_event_is_skipped_witness :
  let w1 := snd (IdentityService.deleteUser "u1" "ev9" Sample.active) in
  let second := IdentityService.syncUser (Sample.dto (Some "ev9")) (advance 5 w1) in
  users (snd second) = users w1
  /\ redis (snd second) = redis w1
  /\ trace (snd second) = (trace w1 ++ [RedisGet "event:processed:ev9"])%list.
Proof.
  apply (sync_after_delete_same_event_is_skipped (Sample.dto (Some "ev9")) "ev9"
           Sample.active
           (snd (IdentityService.deleteUser "u1" "ev9" Sample.active)) 5).
  - reflexivity.
  - discriminate.
  - reflexivity.
  - vm_compute. reflexivity.
  - lia.
Defined.

(** X7. The retention window is tight: once the 24 h of the marker have
    elapsed, the same event is no longer recognised; with the stores
    answering, [syncUser] runs the upsert again, which rewrites the row with
    the same profile and a new update stamp, and writes the marker anew. *)
Theorem expired_marker_reapplies
    (data : SyncUserDto.t) (ev : string) (w w1 : World) (dt : Z) :
  SyncUserDto.eventId data = Some ev ->
  ev <> "" ->
  marker_live w ev = false ->
  IdentityService.syncUser data w = (Ok tt, w1) ->
  86400 * 1000 <= dt ->
  fault_free w1 ->
  let key := IdentityService.idempotencyKey ev in
  let clerkId := SyncUserDto.clerkId data in
  let second := IdentityService.syncUser data (advance dt w1) in
  fst second = Ok tt
  /\ trace (snd second)
     = (trace w1 ++ [RedisGet key; UserUpsert clerkId; RedisSet key "1" 86400])%list
  /\ users (snd second) !! clerkId
     = Some (IdentityService.update_data (SyncUserDto.email data)
               (SyncUserDto.username data) (SyncUserDto.avatarUrl data)
               (now w + dt) (upserted data w)).
Proof.
  intros Hev Hne Hfresh Hrun Hdt Hok key clerkId second.
  pose proof (truthy_nonempty ev Hne) as Ht.
  destruct (syncUser_applied data w w1) as (Hu & Hnow & Hr); [|exact Hrun|].
  { intros ev' Hev'. rewrite Hev in Hev'. now injection Hev' as <-. }
  rewrite Hev, Ht in Hr.
  assert (redis_read (advance dt w1) key = None) as Hread.
  { unfold redis_read, advance. simpl. fold key in Hr.
    rewrite Hr, lookup_insert_eq. simpl.
    assert ((now w1 + dt <? now w + 86400 * 1000) = false) as ->
      by (apply Z.ltb_ge; lia).
    reflexivity. }
  assert (users (advance dt w1) !! clerkId = Some (upserted data w)) as Hrow
    by (simpl; rewrite Hu; apply lookup_insert_eq).
  assert (now (advance dt w1) = now w + dt) as Hnow' by (simpl; lia).
  assert (fault_free (advance dt w1)) as Hok' by exact Hok.
  assert (trace (advance dt w1) = trace w1) as Htrace by reflexivity.
  subst second. clear Hrun Hu Hr Hfresh Hok Hnow.
  set (w2 := advance dt w1) in *. clearbody w2.
  destruct data as [c em u a ev']. simpl in *. subst ev' clerkId.
  unfold IdentityService.syncUser, IdentityService.alreadyProcessed,
    bind, try_catch, ret, redis_get, redis_set, prisma_user_upsert,
    new_Date, uuidv7, await. simpl.
  repeat (progress (rewrite ?Hok', ?Ht, ?redis_read_record, ?Hread, ?Hrow;
                    simpl)).
  fold key. rewrite Hread. simpl.
  repeat (progress (rewrite ?Hok', ?Ht, ?Hrow; simpl)).
  split; [reflexivity|]. split.
  - now rewrite <- !app_assoc, Htrace.
  - rewrite lookup_insert_eq, Hnow'. reflexivity.
Qed.

Lemma expired_marker_reapplies_witness :
  let w1 := snd (IdentityService.syncUser (Sample.dto (Some "ev1")) Sample.empty) in
  let second :=
    IdentityService.syncUser (Sample.dto (Some "ev1")) (advance 86400000 w1) in
  fst second = Ok tt
  /\ trace (snd second)
     = (trace w1 ++ [RedisGet "event:processed:ev1"; UserUpsert "u1";
                     RedisSet "event:processed:ev1" "1" 86400])%list
  /\ users (snd second) !! "u1"
     = Some (IdentityService.update_data "a@x.com" "user_u1" None 86401000
               (upserted (Sample.dto (Some "ev1")) Sample.empty)).
Proof.
  apply (expired_marker_reapplies (Sample.dto (Some "ev1")) "ev1" Sample.empty
           (snd (IdentityService.syncUser (Sample.dto (Some "ev1")) Sample.empty))
           86400000).
  - reflexivity.
  - discriminate.
  - reflexivity.
  - vm_compute. reflexivity.
  - lia.
  - intros n. reflexivity.
Defined.

(** X8. First sight of an identity: a successful [syncUser] whose event is
    not a duplicate, for an external id without row, creates the row with the
    next identifier of the generator, the external id and the profile of the
    call, active; every other row is as before. *)
Theorem syncUser_creates (data : SyncUserDto.t) (w w' : World) :
  users w !! SyncUserDto.clerkId data = None ->
  (forall ev, SyncUserDto.eventId data = Some ev -> marker_live w ev = false) ->
  IdentityService.syncUser data w = (Ok tt, w') ->
  (exists u, users w' !! SyncUserDto.clerkId data = Some u
             /\ User.id u = uuids w (uuid_count w)
             /\ User.clerkId u = SyncUserDto.clerkId data
             /\ User.email u = SyncUserDto.email data
             /\ User.username u = SyncUserDto.username data
             /\ User.avatarUrl u = SyncUserDto.avatarUrl data
             /\ User.deletedAt u = None)
  /\ (forall other, other <> SyncUserDto.clerkId data ->
                    users w' !! other = users w !! other).
Proof.
  intros Habsent Hfresh Hrun.
  destruct (syncUser_applied data w w' Hfresh Hrun) as (Hu & _).
  rewrite Hu. split.
  - exists (upserted data w). rewrite lookup_insert_eq.
    unfold upserted. rewrite Habsent. simpl. repeat split.
  - intros other Hne. now rewrite lookup_insert_ne.
Qed.

Lemma syncUser_creates_witness :
  (exists u, users (snd (IdentityService.syncUser (Sample.dto None) Sample.empty))
               !! "u1" = Some u
             /\ User.id u = "0192f0c1-0000-7000-8000-0"
             /\ User.clerkId u = "u1"
             /\ User.email u = "a@x.com"
             /\ User.username u = "user_u1"
             /\ User.avatarUrl u = None
             /\ User.deletedAt u = None)
  /\ (forall other, other <> "u1" ->
        users (snd (IdentityService.syncUser (Sample.dto None) Sample.empty))
          !! other = users Sample.empty !! other).
Proof.
  apply (syncUser_creates (Sample.dto None) Sample.empty
           (snd (IdentityService.syncUser (Sample.dto None) Sample.empty))).
  - reflexivity.
  - intros ev H. discriminate H.
  - vm_compute. reflexivity.
Defined.

(* ===================================================================== *)
(** ** Session Validator: further properties *)
(* ===================================================================== *)

(** X9. An empty token is refused before anything is asked: the handler
    throws [InvalidArgument] and makes no call to Redis, to the verifier or
    to the database. *)
Theorem empty_token_rejected (codec : Codec) (req : ValidateSessionRequest.t)
    (w : World) :
  ValidateSessionRequest.token req = "" ->
  AuthHandler.validateSession codec req w
  = (Throw (ConnectError "Token is required" InvalidArgument), w).
Proof.
  intros Hempty. unfold AuthHandler.validateSession. rewrite Hempty.
  reflexivity.
Qed.

Lemma empty_token_rejected_witness :
  AuthHandler.validateSession Sample.codec (Sample.request "") Sample.active
  = (Throw (ConnectError "Token is required" InvalidArgument), Sample.active).
Proof.
  apply (empty_token_rejected Sample.codec (Sample.request "") Sample.active).
  reflexivity.
Defined.

(** X10. A credential the verifier rejects, on a cache miss: the answer is
    [valid: false] exactly when the verifier's message contains "expired" or
    "invalid", and an [Internal] error otherwise; the database and the
    provider's profile API are never asked and nothing is cached. *)
Theorem rejected_credential (codec : Codec) (req : ValidateSessionRequest.t)
    (w : World) (e : JsError) :
  let token := ValidateSessionRequest.token req in
  token <> "" ->
  faults w (length (trace w)) = None ->
  JsString.truthy_opt (redis_read w (AuthHandler.cacheKey token)) = false ->
  verifier w token = Throw e ->
  AuthHandler.validateSession codec req w
  = (if JsString.includes "expired" (message e)
        || JsString.includes "invalid" (message e)
     then Ok ValidateSessionResponse.invalid
     else Throw (ConnectError "Internal Auth Error" Internal),
     record (VerifyToken token)
       (record (RedisGet (AuthHandler.cacheKey token)) w)).
Proof.
  intros token Hne Hf Hmiss Hver.
  rewrite validateSession_miss_run; auto using truthy_nonempty. fold token.
  unfold try_catch, AuthHandler.verify_and_check. fold token.
  unfold bind at 1. unfold verifyToken, ask. simpl. rewrite Hver.
  unfold AuthHandler.on_error.
  destruct (_ || _); reflexivity.
Qed.

Lemma rejected_credential_witness :
  AuthHandler.validateSession Sample.codec (Sample.request "garbage") Sample.active
  = (Ok ValidateSessionResponse.invalid,
     record (VerifyToken "garbage")
       (record (RedisGet (AuthHandler.cacheKey "garbage")) Sample.active)).
Proof.
  apply (rejected_credential Sample.codec (Sample.request "garbage")
           Sample.active (mkError "JWT signature is invalid." NoCode)).
  - discriminate.
  - reflexivity.
  - reflexivity.
  - reflexivity.
Defined.

(** The run of the [try] block for a verified credential whose record is
    found and active, up to the lane check. *)
Lemma verify_and_check_found (codec : Codec) (req : ValidateSessionRequest.t)
    (w : World) (sub : string) (u : User.t) :
  let token := ValidateSessionRequest.token req in
  faults w (S (length (trace w))) = None ->
  verifier w token = Ok sub ->
  users w !! sub = Some u ->
  User.deletedAt u = None ->
  AuthHandler.verify_and_check codec req w
  = bind (AuthHandler.scope_check (ValidateSessionRequest.requiredScope req) u)
      (fun _ =>
         bind (redis_set (AuthHandler.cacheKey token)
                 (toJsonString codec (AuthHandler.response_of u sub))
                 AuthHandler.SESSION_CACHE_TTL)
           (fun _ => ret (AuthHandler.response_of u sub)))
      (record (UserFindUnique sub) (record (VerifyToken token) w)).
Proof.
  intros token Hf Hver Hu Hact.
  unfold AuthHandler.verify_and_check. fold token.
  unfold bind at 1. unfold verifyToken, ask. simpl. rewrite Hver.
  unfold bind at 1. unfold prisma_user_findUnique, await. simpl.
  rewrite length_app, Nat.add_comm. simpl. rewrite Hf. simpl. rewrite Hu.
  unfold bind at 1. unfold ret at 1. rewrite Hact. reflexivity.
Qed.

(** X11. The positive path: on a cache miss, with the stores answering, a
    verified credential whose record is active and a request without scope
    get the [valid: true] response built from the record, and that response
    is written to the cache under the token's fingerprint for 60 s.  The
    table is only read. *)
Theorem active_user_is_validated (codec : Codec)
    (req : ValidateSessionRequest.t) (w : World) (sub : string) (u : User.t) :
  let token := ValidateSessionRequest.token req in
  let r := AuthHandler.validateSession codec req w in
  token <> "" ->
  ValidateSessionRequest.requiredScope req = "" ->
  fault_free w ->
  JsString.truthy_opt (redis_read w (AuthHandler.cacheKey token)) = false ->
  verifier w token = Ok sub ->
  users w !! sub = Some u ->
  User.deletedAt u = None ->
  fst r = Ok (AuthHandler.response_of u sub)
  /\ redis (snd r)
     = <[AuthHandler.cacheKey token :=
           mkEntry (toJsonString codec (AuthHandler.response_of u sub))
                   (now w + 60 * 1000)]> (redis w)
  /\ users (snd r) = users w
  /\ trace (snd r)
     = (trace w ++ [RedisGet (AuthHandler.cacheKey token); VerifyToken token;
                    UserFindUnique sub;
                    RedisSet (AuthHandler.cacheKey token)
                      (toJsonString codec (AuthHandler.response_of u sub)) 60])%list.
Proof.
  intros token r Hne Hscope Hok Hmiss Hver Hu Hact. subst r.
  rewrite validateSession_miss_run; auto using truthy_nonempty. fold token.
  unfold try_catch.
  rewrite (verify_and_check_found codec req _ sub u);
    [| apply Hok | exact Hver | exact Hu | exact Hact].
  rewrite Hscope. fold token.
  unfold AuthHandler.scope_check. simpl.
  unfold bind, ret, redis_set, await. simpl. rewrite Hok. simpl.
  split; [reflexivity|]. split; [reflexivity|]. split; [reflexivity|].
  now rewrite <- !app_assoc.
Qed.

Lemma active_user_is_validated_witness :
  let r := AuthHandler.validateSession Sample.codec
             (Sample.request Sample.token_u1) Sample.active in
  fst r = Ok Sample.response_u1
  /\ redis (snd r)
     = <[AuthHandler.cacheKey Sample.token_u1 :=
           mkEntry (Sample.print Sample.response_u1) 61000]> ∅
  /\ users (snd r) = users Sample.active
  /\ trace (snd r)
     = [RedisGet (AuthHandler.cacheKey Sample.token_u1);
        VerifyToken Sample.token_u1; UserFindUnique "u1";
        RedisSet (AuthHandler.cacheKey Sample.token_u1)
          (Sample.print Sample.response_u1) 60].
Proof.
  apply (active_user_is_validated Sample.codec (Sample.request Sample.token_u1)
           Sample.active "u1" (Sample.user_u1 None)).
  - discriminate.
  - reflexivity.
  - intros n. reflexivity.
  - reflexivity.
  - reflexivity.
  - reflexivity.
  - reflexivity.
Defined.

(** X12. JIT provisioning converges: on a cache miss, with the stores
    answering, a verified credential without record whose provider profile
    has a primary email ends with exactly one new row for the subject (fresh
    id, the profile's email and image, the profile's username or
    ["user_"] + the first 8 characters of the subject), a [valid: true]
    response built from that row, and one cache write.  The ledger of events
    is not involved. *)
Theorem jit_provisioning_converges (codec : Codec)
    (req : ValidateSessionRequest.t) (w : World) (sub : string)
    (clerkUser : ClerkUser.t) (email : string) :
  let token := ValidateSessionRequest.token req in
  let r := AuthHandler.validateSession codec req w in
  let created :=
    IdentityService.create_data (uuids w (uuid_count w)) sub email
      (AuthHandler.or_else (ClerkUser.username clerkUser)
                           ("user_" +:+ JsString.slice_first 8 sub))
      (Some (ClerkUser.imageUrl clerkUser)) (now w) in
  token <> "" ->
  ValidateSessionRequest.requiredScope req = "" ->
  fault_free w ->
  JsString.truthy_opt (redis_read w (AuthHandler.cacheKey token)) = false ->
  verifier w token = Ok sub ->
  users w !! sub = None ->
  provider w sub = Ok clerkUser ->
  AuthHandler.primaryEmail clerkUser = Some email ->
  email <> "" ->
  fst r = Ok (AuthHandler.response_of created sub)
  /\ users (snd r) = <[sub := created]> (users w)
  /\ redis (snd r)
     = <[AuthHandler.cacheKey token :=
           mkEntry (toJsonString codec (AuthHandler.response_of created sub))
                   (now w + 60 * 1000)]> (redis w)
  /\ trace (snd r)
     = (trace w ++ [RedisGet (AuthHandler.cacheKey token); VerifyToken token;
                    UserFindUnique sub; ClerkGetUser sub; UserUpsert sub;
                    UserFindUniqueOrThrow sub;
                    RedisSet (AuthHandler.cacheKey token)
                      (toJsonString codec (AuthHandler.response_of created sub))
                      60])%list.
Proof.
  intros token r created Hne Hscope Hok Hmiss Hver Hu Hprov Hmail Hemail.
  subst r. pose proof (truthy_nonempty email Hemail) as Ht.
  rewrite validateSession_miss_run; auto using truthy_nonempty. fold token.
  unfold try_catch, AuthHandler.verify_and_check. fold token.
  rewrite Hscope.
  unfold AuthHandler.jit_provision, AuthHandler.scope_check,
    IdentityService.syncUser, IdentityService.alreadyProcessed,
    bind, ret, throw, verifyToken, clerk_users_getUser, ask,
    redis_set, prisma_user_findUnique, prisma_user_findUniqueOrThrow,
    prisma_user_upsert, try_catch, new_Date, uuidv7, await.
  simpl.
  repeat (progress (rewrite ?Hok, ?Hver, ?Hu, ?Hprov, ?Hmail, ?Ht,
                      ?lookup_insert_eq; simpl)).
  fold created.
  split; [reflexivity|]. split; [reflexivity|]. split; [reflexivity|].
  now rewrite <- !app_assoc.
Qed.

Lemma jit_provisioning_converges_witness :
  let r := AuthHandler.validateSession Sample.codec
             (Sample.request Sample.token_u1) Sample.empty in
  let created :=
    IdentityService.create_data "0192f0c1-0000-7000-8000-0" "u1" "a@x.com"
      "user_u1" (Some "https://img/u1.png") 1000 in
  fst r = Ok (AuthHandler.response_of created "u1")
  /\ users (snd r) = <["u1" := created]> ∅
  /\ redis (snd r)
     = <[AuthHandler.cacheKey Sample.token_u1 :=
           mkEntry (Sample.print (AuthHandler.response_of created "u1")) 61000]> ∅
  /\ trace (snd r)
     = [RedisGet (AuthHandler.cacheKey Sample.token_u1);
        VerifyToken Sample.token_u1; UserFindUnique "u1"; ClerkGetUser "u1";
        UserUpsert "u1"; UserFindUniqueOrThrow "u1";
        RedisSet (AuthHandler.cacheKey Sample.token_u1)
          (Sample.print (AuthHandler.response_of created "u1")) 60].
Proof.
  apply (jit_provisioning_converges Sample.codec
           (Sample.request Sample.token_u1) Sample.empty "u1"
           {| ClerkUser.emailAddresses := [ClerkUser.mkEmail "idn_1" "a@x.com"];
              ClerkUser.primaryEmailAddressId := Some "idn_1";
              ClerkUser.username := None;
              ClerkUser.imageUrl := "https://img/u1.png" |}
           "a@x.com").
  - discriminate.
  - reflexivity.
  - intros n. reflexivity.
  - reflexivity.
  - reflexivity.
  - reflexivity.
  - reflexivity.
  - reflexivity.
  - discriminate.
Defined.

(** X13. The lane check: for a verified, active user and a required scope
    that starts with ["lane:"] and whose second colon-separated segment
    [laneId] is not empty, the membership of the user in that lane is looked
    up.  A [BANNED] role ends the call with the [Internal] error (the
    [PermissionDenied] raised by the check does not leave the [try] block)
    and nothing is cached; any other role, or no membership at all, lets the
    call succeed and the response is cached. *)
Theorem lane_scope_check (codec : Codec) (req : ValidateSessionRequest.t)
    (w : World) (sub : string) (u : User.t) (laneId : string) :
  let token := ValidateSessionRequest.token req in
  let scope := ValidateSessionRequest.requiredScope req in
  let r := AuthHandler.validateSession codec req w in
  token <> "" ->
  fault_free w ->
  JsString.truthy_opt (redis_read w (AuthHandler.cacheKey token)) = false ->
  verifier w token = Ok sub ->
  users w !! sub = Some u ->
  User.deletedAt u = None ->
  JsString.startsWith "lane:" scope = true ->
  nth_error (JsString.split ":" scope) 1 = Some laneId ->
  laneId <> "" ->
  In (LaneMemberFindUnique laneId (User.id u)) (trace (snd r))
  /\ match laneMembers w !! (laneId, User.id u) with
     | Some BANNED =>
         fst r = Throw (ConnectError "Internal Auth Error" Internal)
         /\ redis (snd r) = redis w
     | _ =>
         fst r = Ok (AuthHandler.response_of u sub)
         /\ redis (snd r)
            = <[AuthHandler.cacheKey token :=
                  mkEntry (toJsonString codec (AuthHandler.response_of u sub))
                          (now w + 60 * 1000)]> (redis w)
     end.
Proof.
  intros token scope r Hne Hok Hmiss Hver Hu Hact Hlane Hseg Hid. subst r.
  pose proof (truthy_nonempty laneId Hid) as Ht.
  assert (JsString.truthy scope = true) as Hs
    by (destruct scope; [discriminate Hlane | reflexivity]).
  rewrite validateSession_miss_run; auto using truthy_nonempty. fold token.
  unfold try_catch.
  rewrite (verify_and_check_found codec req _ sub u);
    [| apply Hok | exact Hver | exact Hu | exact Hact].
  fold token scope.
  unfold AuthHandler.scope_check. rewrite Hs, Hlane, Hseg, Ht. simpl.
  unfold bind, ret, throw, prisma_laneMember_findUnique, redis_set, await.
  simpl. rewrite !Hok. simpl.
  destruct (laneMembers w !! (laneId, User.id u)) as [[|name]|]; simpl;
    rewrite ?Hok; simpl; rewrite ?on_error_lane_ban; simpl;
    (split; [rewrite !in_app_iff; simpl; tauto | split; reflexivity]).
Qed.

Lemma lane_scope_check_witness :
  let w := mkWorld 1000 ∅ {[ "u1" := Sample.user_u1 None ]}
             {[ ("42", "0192f0c1-0000-7000-8000-9") := BANNED ]}
             Sample.jwt_check Sample.profiles Sample.uuid_stream 0
             Sample.no_faults [] in
  let r := AuthHandler.validateSession Sample.codec
             {| ValidateSessionRequest.token := Sample.token_u1;
                ValidateSessionRequest.requiredScope := "lane:42" |} w in
  In (LaneMemberFindUnique "42" "0192f0c1-0000-7000-8000-9") (trace (snd r))
  /\ fst r = Throw (ConnectError "Internal Auth Error" Internal)
  /\ redis (snd r) = ∅.
Proof.
  intros w r.
  apply (lane_scope_check Sample.codec
           {| ValidateSessionRequest.token := Sample.token_u1;
              ValidateSessionRequest.requiredScope := "lane:42" |}
           w "u1" (Sample.user_u1 None) "42").
  - discriminate.
  - intros n. reflexivity.
  - reflexivity.
  - reflexivity.
  - reflexivity.
  - reflexivity.
  - reflexivity.
  - reflexivity.
  - discriminate.
Defined.







Lemma verify_and_check_keeps_clock (codec : Codec)
    (req : ValidateSessionRequest.t) (w0 w : World) :
  now w = now w0 ->
  wp (AuthHandler.verify_and_check codec req) (fun _ w' => now w' = now w0) w.
Proof.
  intros Hn. unfold AuthHandler.verify_and_check.
  apply wp_bind, wp_quiet; [auto with quiet|].
  intros [clerkId|e] w1 _ Hn1; [|congruence].
  apply wp_bind, wp_quiet; [auto with quiet|].
  intros [found|e] w2 _ Hn2; [|congruence].
  apply wp_bind, wp_quiet; [destruct found; auto with quiet|].
  intros [user|e] w3 _ Hn3; [|congruence].
  destruct (User.deletedAt user); [unfold wp; simpl; congruence|].
  apply wp_bind, wp_quiet; [auto with quiet|].
  intros [[]|e] w4 _ Hn4; [|congruence].
  unfold wp, bind, redis_set, await, ret.
  destruct (faults w4 (length (trace w4))); simpl; congruence.
Qed.

(** The handler reads the clock and never moves it. *)
Lemma validateSession_keeps_clock (codec : Codec)
    (req : ValidateSessionRequest.t) (w : World) :
  now (snd (AuthHandler.validateSession codec req w)) = now w.
Proof.
  change (wp (AuthHandler.validateSession codec req)
             (fun _ w' => now w' = now w) w).
  unfold AuthHandler.validateSession.
  destruct (negb _); [reflexivity|].
  apply wp_bind, wp_quiet; [auto with quiet|].
  intros [cached|e] w1 _ Hn1; [|exact Hn1].
  assert (wp (try_catch (AuthHandler.verify_and_check codec req)
                        AuthHandler.on_error)
             (fun _ w' => now w' = now w) w1) as Hmiss.
  { apply wp_try_catch.
    apply (wp_mono _ (fun _ w' => now w' = now w));
      [|now apply verify_and_check_keeps_clock].
    intros [resp|e] w2 H; [exact H|].
    apply wp_quiet; [auto with quiet|]. intros; congruence. }
  destruct cached as [cached|]; [|exact Hmiss].
  destruct (JsString.truthy cached); [|exact Hmiss].
  exact Hn1.
Qed.

Lemma cacheKey_not_a_marker (token eventId : string) :
  AuthHandler.cacheKey token <> IdentityService.idempotencyKey eventId.
Proof. discriminate. Qed.

(** X15. The accepted staleness: after a run that cached a [valid: true]
    response, a [deleteUser] for the user (the ban) does not reach the
    session cache; for the next 60 s a request with the same token is still
    answered with the cached response, from the single Redis [GET], without
    looking at the record. *)
Theorem ban_is_invisible_while_cached (codec : Codec)
    (req : ValidateSessionRequest.t) (w0 w1 : World)
    (resp : ValidateSessionResponse.t) (clerkId eventId : string) (dt : Z) :
  let key := AuthHandler.cacheKey (ValidateSessionRequest.token req) in
  let w2 := advance dt (snd (IdentityService.deleteUser clerkId eventId w1)) in
  AuthHandler.validateSession codec req w0 = (Ok resp, w1) ->
  redis w1 <> redis w0 ->
  fromJsonString codec (toJsonString codec resp) = Ok resp ->
  toJsonString codec resp <> "" ->
  dt < 60 * 1000 ->
  faults w2 (length (trace w2)) = None ->
  AuthHandler.validateSession codec req w2 = (Ok resp, record (RedisGet key) w2).
Proof.
  intros key w2 Hrun Hwrote Hround Hne Hdt Hf.
  assert (ValidateSessionRequest.token req <> "") as Htok.
  { intros Hempty. unfold AuthHandler.validateSession in Hrun.
    rewrite Hempty in Hrun. discriminate Hrun. }
  destruct (deleteUser_frame clerkId eventId w1) as (Hnow & Hredis).
  pose proof (validateSession_keeps_clock codec req w0) as Hclock.
  rewrite Hrun in Hclock. simpl in Hclock.
  apply (cached_response_is_replayed codec req req w0 w1 w2 resp);
    try assumption; try reflexivity; subst w2; simpl.
  - apply Hredis, cacheKey_not_a_marker.
  - lia.
Qed.

Lemma ban_is_invisible_while_cached_witness :
  let w1 := snd (AuthHandler.validateSession Sample.codec
                   (Sample.request Sample.token_u1) Sample.active) in
  let w2 := advance 59999 (snd (IdentityService.deleteUser "u1" "ev2" w1)) in
  (exists u, users w2 !! "u1" = Some u /\ User.deletedAt u = Some 1000)
  /\ AuthHandler.validateSession Sample.codec (Sample.request Sample.token_u1) w2
     = (Ok Sample.response_u1,
        record (RedisGet (AuthHandler.cacheKey Sample.token_u1)) w2).
Proof.
  intros w1 w2. split.
  - eexists. split; vm_compute; reflexivity.
  - apply (ban_is_invisible_while_cached Sample.codec
             (Sample.request Sample.token_u1) Sample.active w1
             Sample.response_u1 "u1" "ev2" 59999).
    + vm_compute. reflexivity.
    + intros H. apply (f_equal (fun m => m !! AuthHandler.cacheKey Sample.token_u1)) in H.
      vm_compute in H. discriminate H.
    + reflexivity.
    + discriminate.
    + lia.
    + reflexivity.
Defined.

(** X16. The ban takes effect when the entry expires: after a run that
    cached a response at instant [t], a request with the same token made at
    [t + 60 s] or later, the entry untouched and the stores answering, is not
    served from the cache; if the user's row is soft-deleted by then the call
    no longer succeeds (it ends with the [Internal] error that the ban check
    produces). *)
Theorem ban_is_enforced_after_expiry (codec : Codec)
    (req : ValidateSessionRequest.t) (w0 w1 w2 : World)
    (resp : ValidateSessionResponse.t) (sub : string) (u : User.t) (t : Z) :
  let token := ValidateSessionRequest.token req in
  let key := AuthHandler.cacheKey token in
  AuthHandler.validateSession codec req w0 = (Ok resp, w1) ->
  redis w1 <> redis w0 ->
  redis w2 !! key = redis w1 !! key ->
  now w0 + 60 * 1000 <= now w2 ->
  fault_free w2 ->
  verifier w2 token = Ok sub ->
  users w2 !! sub = Some u ->
  User.deletedAt u = Some t ->
  AuthHandler.validateSession codec req w2
  = (Throw (ConnectError "Internal Auth Error" Internal),
     record (UserFindUnique sub)
       (record (VerifyToken token) (record (RedisGet key) w2))).
Proof.
  intros token key Hrun Hwrote Hsame Hlate Hok Hver Hu Hdel.
  assert (token <> "") as Htok.
  { intros Hempty. unfold AuthHandler.validateSession in Hrun.
    fold token in Hrun. rewrite Hempty in Hrun. discriminate Hrun. }
  pose proof (validateSession_cache_effect codec req w0) as Heff.
  unfold wp in Heff. rewrite Hrun in Heff. simpl in Heff.
  destruct (ValidateSessionResponse.valid resp); [|contradiction].
  destruct Heff as [Heq | Heq]; [contradiction|].
  apply (banned_record_run codec req w2 sub u t);
    auto using truthy_nonempty.
  fold token key. unfold redis_read. rewrite Hsame, Heq. fold token key.
  rewrite lookup_insert_eq. simpl.
  assert ((now w2 <? now w0 + AuthHandler.SESSION_CACHE_TTL * 1000) = false) as ->
    by (apply Z.ltb_ge; unfold AuthHandler.SESSION_CACHE_TTL; lia).
  reflexivity.
Qed.

Lemma ban_is_enforced_after_expiry_witness :
  let w1 := snd (AuthHandler.validateSession Sample.codec
                   (Sample.request Sample.token_u1) Sample.active) in
  let w2 := advance 60000 (snd (IdentityService.deleteUser "u1" "ev2" w1)) in
  fst (AuthHandler.validateSession Sample.codec
         (Sample.request Sample.token_u1) w2)
  = Throw (ConnectError "Internal Auth Error" Internal).
Proof.
  intros w1 w2.
  rewrite (ban_is_enforced_after_expiry Sample.codec
             (Sample.request Sample.token_u1) Sample.active w1 w2
             Sample.response_u1 "u1"
             (IdentityService.delete_data 1000 (Sample.user_u1 None)) 1000).
  - reflexivity.
  - vm_compute. reflexivity.
  - intros H. apply (f_equal (fun m => m !! AuthHandler.cacheKey Sample.token_u1)) in H.
    vm_compute in H. discriminate H.
  - vm_compute. reflexivity.
  - vm_compute. discriminate.
  - intros n. reflexivity.
  - reflexivity.
  - vm_compute. reflexivity.
  - reflexivity.
Defined.

(** X17. Tokens with the same tail share an entry: after a run that cached
    the response of one token, any other non-empty token with the same last
    32 characters is answered, for 60 s, with that cached response from the
    single Redis [GET]; the verifier is not asked about the second token. *)
Theorem same_tail_shares_cache_entry (codec : Codec)
    (req req2 : ValidateSessionRequest.t) (w0 w1 : World)
    (resp : ValidateSessionResponse.t) (dt : Z) :
  let token := ValidateSessionRequest.token req in
  let token2 := ValidateSessionRequest.token req2 in
  let w2 := advance dt w1 in
  AuthHandler.validateSession codec req w0 = (Ok resp, w1) ->
  redis w1 <> redis w0 ->
  fromJsonString codec (toJsonString codec resp) = Ok resp ->
  toJsonString codec resp <> "" ->
  token2 <> "" ->
  JsString.slice_last 32 token2 = JsString.slice_last 32 token ->
  dt < 60 * 1000 ->
  faults w2 (length (trace w2)) = None ->
  AuthHandler.validateSession codec req2 w2
  = (Ok resp, record (RedisGet (AuthHandler.cacheKey token)) w2).
Proof.
  intros token token2 w2 Hrun Hwrote Hround Hne Htok Htail Hdt Hf.
  pose proof (validateSession_keeps_clock codec req w0) as Hclock.
  rewrite Hrun in Hclock. simpl in Hclock.
  apply (cached_response_is_replayed codec req req2 w0 w1 w2 resp);
    try assumption; try reflexivity.
  - unfold AuthHandler.cacheKey. fold token token2. now rewrite Htail.
  - subst w2. simpl. lia.
Qed.

Lemma same_tail_shares_cache_entry_witness :
  let forged := "AAAAAAAAAA.u1u1u1u1u1u1u1u1.sig-0123456789" in
  let w1 := snd (AuthHandler.validateSession Sample.codec
                   (Sample.request Sample.token_u1) Sample.active) in
  verifier w1 forged = Throw (mkError "JWT signature is invalid." NoCode)
  /\ AuthHandler.validateSession Sample.codec (Sample.request forged)
       (advance 10 w1)
     = (Ok Sample.response_u1,
        record (RedisGet (AuthHandler.cacheKey Sample.token_u1)) (advance 10 w1)).
Proof.
  intros forged w1. split; [reflexivity|].
  apply (same_tail_shares_cache_entry Sample.codec
           (Sample.request Sample.token_u1) (Sample.request forged)
           Sample.active w1 Sample.response_u1 10).
  - vm_compute. reflexivity.
  - intros H. apply (f_equal (fun m => m !! AuthHandler.cacheKey Sample.token_u1)) in H.
    vm_compute in H. discriminate H.
  - reflexivity.
  - discriminate.
  - discriminate.
  - reflexivity.
  - lia.
  - reflexivity.
Defined.

(* ===================================================================== *)
(** ** Webhook controller *)
(* ===================================================================== *)

(** A verified delivery reaches the business branch. *)
Lemma handle_verified_delivery (svix : Svix) (env : gmap string string)
    (req : WebhookController.Request) (w : World)
    (evt : ClerkUserEvent.t) (id : string) :
  verified_delivery svix env req w evt id ->
  WebhookController.handleClerkWebhook svix env req w
  = try_catch (WebhookController.process_event evt id)
              (fun _ => ret internal_error) w.
Proof.
  intros (secret & ts & sig & payload & wh & Hs & Hs' & Hi & Hi' & Ht & Ht'
          & Hg & Hg' & Hb & Hnew & Hver).
  unfold WebhookController.handleClerkWebhook.
  rewrite Hs, Hi, Ht, Hg, Hb. simpl.
  rewrite !truthy_nonempty by assumption. simpl.
  unfold bind, lift, new_Date. rewrite Hnew, Hver. reflexivity.
Qed.

(** The marker is readable after every successful [syncUser] that carries an
    event identifier, and after every successful [deleteUser]. *)
Lemma syncUser_ok_marker_live (data : SyncUserDto.t) (ev : string) (w w' : World) :
  SyncUserDto.eventId data = Some ev ->
  ev <> "" ->
  IdentityService.syncUser data w = (Ok tt, w') ->
  marker_live w' ev = true.
Proof.
  intros Hev Hne Hrun.
  pose proof (truthy_nonempty ev Hne) as Ht.
  destruct (marker_live w ev) eqn:Hm.
  - rewrite (syncUser_duplicate data ev w Hev Ht Hm) in Hrun.
    injection Hrun as _ <-. exact Hm.
  - destruct (syncUser_applied data w w') as (_ & Hnow & Hr); [|exact Hrun|].
    { intros ev' Hev'. rewrite Hev in Hev'. now injection Hev' as <-. }
    rewrite Hev, Ht in Hr.
    unfold marker_live, redis_read. rewrite Hr, lookup_insert_eq. simpl.
    assert ((now w' <? now w + 86400 * 1000) = true) as ->
      by (apply Z.ltb_lt; lia).
    reflexivity.
Qed.

Lemma deleteUser_ok_marker_live (clerkId eventId : string) (w w' : World) :
  IdentityService.deleteUser clerkId eventId w = (Ok tt, w') ->
  marker_live w' eventId = true.
Proof.
  intros Hrun. destruct (marker_live w eventId) eqn:Hm.
  - rewrite (deleteUser_duplicate_run clerkId eventId w Hm) in Hrun.
    injection Hrun as _ <-. exact Hm.
  - destruct (deleteUser_ok_marker _ _ _ _ Hm Hrun) as (Hnow & Hr).
    unfold marker_live, redis_read. rewrite Hr, lookup_insert_eq. simpl.
    assert ((now w' <? now w + 86400 * 1000) = true) as ->
      by (apply Z.ltb_lt; lia).
    reflexivity.
Qed.

Ltac run_webhook :=
  unfold WebhookController.handleClerkWebhook, WebhookController.process_event,
    bind, try_catch, lift, ret, new_Date in *; simpl in *.

(** X18. Client errors are decided before any store is touched: whenever
    the controller answers 400 (missing headers, invalid signature, no email
    on a create or update), the world is exactly as it was: no call to Redis
    or to the database was made. *)
Theorem webhook_client_error_touches_nothing (svix : Svix)
    (env : gmap string string) (req : WebhookController.Request)
    (w w' : World) (resp : WebhookController.Response) :
  WebhookController.handleClerkWebhook svix env req w = (Ok resp, w') ->
  WebhookController.status resp = 400 ->
  w' = w.
Proof.
  intros Hrun Hst. run_webhook.
  split_cases; simpl in *; congruence.
Qed.

Lemma webhook_client_error_touches_nothing_witness :
  snd (WebhookController.handleClerkWebhook WebhookSample.svix WebhookSample.env
         (WebhookSample.delivery "msg_1" "v1,ok" "created-without-email")
         Sample.active)
  = Sample.active.
Proof.
  apply (webhook_client_error_touches_nothing WebhookSample.svix
           WebhookSample.env
           (WebhookSample.delivery "msg_1" "v1,ok" "created-without-email")
           Sample.active _
           (WebhookController.mkResponse 400
              (WebhookController.ErrorBody "No email provided"))).
  - vm_compute. reflexivity.
  - reflexivity.
Defined.



(** X20. Events of other types are acknowledged and ignored: a verified
    delivery whose type is none of [user.created], [user.updated],
    [user.deleted] is answered 200 without any call to a store. *)
Theorem webhook_ignores_other_types (svix : Svix) (env : gmap string string)
    (req : WebhookController.Request) (w : World)
    (evt : ClerkUserEvent.t) (id : string) :
  verified_delivery svix env req w evt id ->
  handled_type (ClerkUserEvent.type evt) = false ->
  WebhookController.handleClerkWebhook svix env req w
  = (Ok (WebhookController.mkResponse 200 WebhookController.SuccessBody), w).
Proof.
  intros Hver Htype. rewrite (handle_verified_delivery _ _ _ _ _ _ Hver).
  unfold handled_type in Htype.
  apply orb_false_elim in Htype as [Htype Hdel].
  unfold try_catch, WebhookController.process_event.
  rewrite Htype, Hdel. reflexivity.
Qed.

Lemma verified_sample (id payload : string) (w : World) (evt : ClerkUserEvent.t) :
  id <> "" ->
  WebhookSample.check (now w) payload (mkSvixHeaders id "1700000000" "v1,ok")
    = Ok evt ->
  verified_delivery WebhookSample.svix WebhookSample.env
    (WebhookSample.delivery id "v1,ok" payload) w evt id.
Proof.
  intros Hid Hcheck.
  exists "whsec_c2VjcmV0", "1700000000", "v1,ok", payload, WebhookSample.check.
  repeat split; try discriminate; try assumption; reflexivity.
Qed.

Lemma webhook_ignores_other_types_witness :
  WebhookController.handleClerkWebhook WebhookSample.svix WebhookSample.env
    (WebhookSample.delivery "msg_7" "v1,ok" "session") Sample.active
  = (Ok (WebhookController.mkResponse 200 WebhookController.SuccessBody),
     Sample.active).
Proof.
  apply (webhook_ignores_other_types WebhookSample.svix WebhookSample.env
           (WebhookSample.delivery "msg_7" "v1,ok" "session") Sample.active
           (WebhookSample.event "session.created" []) "msg_7").
  - apply verified_sample; [discriminate | reflexivity].
  - reflexivity.
Defined.

(** X21. An acknowledgement means the event is in the ledger: when a
    verified [user.created], [user.updated] or [user.deleted] delivery is
    answered 200, the marker of its [svix-id] is readable afterwards. *)
Theorem webhook_ack_means_recorded (svix : Svix) (env : gmap string string)
    (req : WebhookController.Request) (w w' : World)
    (evt : ClerkUserEvent.t) (id : string) (resp : WebhookController.Response) :
  verified_delivery svix env req w evt id ->
  handled_type (ClerkUserEvent.type evt) = true ->
  WebhookController.handleClerkWebhook svix env req w = (Ok resp, w') ->
  WebhookController.status resp = 200 ->
  marker_live w' id = true.
Proof.
  intros Hver Htype Hrun Hst.
  assert (id <> "") as Hid by (destruct Hver as (?&?&?&?&?&?&?&?&?&?); tauto).
  rewrite (handle_verified_delivery _ _ _ _ _ _ Hver) in Hrun.
  unfold handled_type in Htype.
  unfold try_catch, WebhookController.process_event, bind, ret in Hrun.
  destruct (_ || _) eqn:Hsync in Hrun.
  - destruct (ClerkUserEvent.email_addresses _) as [|e rest];
      [injection Hrun as <- <-; discriminate Hst|].
    destruct (JsString.truthy _);
      [|injection Hrun as <- <-; discriminate Hst].
    match type of Hrun with
    | context [IdentityService.syncUser ?d w] =>
        destruct (IdentityService.syncUser d w) as [[[]|err] w2] eqn:Hs
    end.
    + injection Hrun as _ <-.
      eapply syncUser_ok_marker_live; [|exact Hid|exact Hs]. reflexivity.
    + injection Hrun as <- <-. discriminate Hst.
  - rewrite Hsync in Htype. simpl in Htype. rewrite Htype in Hrun.
    match type of Hrun with
    | context [IdentityService.deleteUser ?c id w] =>
        destruct (IdentityService.deleteUser c id w) as [[[]|err] w2] eqn:Hd
    end.
    + injection Hrun as _ <-. apply (deleteUser_ok_marker_live _ _ _ _ Hd).
    + injection Hrun as <- <-. discriminate Hst.
Qed.

Lemma webhook_ack_means_recorded_witness :
  marker_live
    (snd (WebhookController.handleClerkWebhook WebhookSample.svix
            WebhookSample.env (WebhookSample.delivery "msg_1" "v1,ok" "created")
            Sample.empty))
    "msg_1" = true.
Proof.
  apply (webhook_ack_means_recorded WebhookSample.svix WebhookSample.env
           (WebhookSample.delivery "msg_1" "v1,ok" "created") Sample.empty _
           (WebhookSample.event "user.created"
              [ClerkUserEvent.mkEmail "a@x.com" "idn_1"])
           "msg_1"
           (WebhookController.mkResponse 200 WebhookController.SuccessBody)).
  - apply verified_sample; [discriminate | reflexivity].
  - reflexivity.
  - vm_compute. reflexivity.
  - reflexivity.
Defined.

(** X22. A 500 means the event is not in the ledger: whenever the
    controller answers 500, Redis is as it was before the request, so the
    provider's redelivery is not mistaken for a duplicate. *)
Theorem webhook_failure_is_not_recorded (svix : Svix)
    (env : gmap string string) (req : WebhookController.Request)
    (w w' : World) (resp : WebhookController.Response) :
  WebhookController.handleClerkWebhook svix env req w = (Ok resp, w') ->
  WebhookController.status resp = 500 ->
  redis w' = redis w.
Proof.
  intros Hrun Hst. run_webhook.
  split_cases; simpl in *; try congruence;
    eauto using syncUser_throw_keeps_redis, deleteUser_throw_keeps_redis.
Qed.

Lemma webhook_failure_is_not_recorded_witness :
  redis (snd (WebhookController.handleClerkWebhook WebhookSample.svix
                WebhookSample.env
                (WebhookSample.delivery "msg_1" "v1,ok" "created")
                WebhookSample.db_down))
  = redis WebhookSample.db_down.
Proof.
  apply (webhook_failure_is_not_recorded WebhookSample.svix WebhookSample.env
           (WebhookSample.delivery "msg_1" "v1,ok" "created")
           WebhookSample.db_down _
           (WebhookController.mkResponse 500
              (WebhookController.ErrorBody "Internal server error"))).
  - vm_compute. reflexivity.
  - reflexivity.
Defined.

(** X23. Redelivery is harmless: for a verified delivery whose marker is
    readable, with Redis answering, the controller changes neither the table
    nor Redis, and does not answer 500. *)
Theorem webhook_duplicate_delivery (svix : Svix) (env : gmap string string)
    (req : WebhookController.Request) (w : World)
    (evt : ClerkUserEvent.t) (id : string) :
  verified_delivery svix env req w evt id ->
  marker_live w id = true ->
  faults w (length (trace w)) = None ->
  let r := WebhookController.handleClerkWebhook svix env req w in
  users (snd r) = users w
  /\ redis (snd r) = redis w
  /\ exists resp, fst r = Ok resp /\ WebhookController.status resp <> 500.
Proof.
  intros Hver Hlive Hf r. subst r.
  assert (id <> "") as Hid by (destruct Hver as (?&?&?&?&?&?&?&?&?&?); tauto).
  rewrite (handle_verified_delivery _ _ _ _ _ _ Hver).
  unfold try_catch, WebhookController.process_event, bind, ret.
  destruct (_ || _).
  - destruct (ClerkUserEvent.email_addresses _) as [|e rest];
      [simpl; repeat split; eexists; split; [reflexivity | discriminate]|].
    destruct (JsString.truthy _);
      [|simpl; repeat split; eexists; split; [reflexivity | discriminate]].
    erewrite syncUser_duplicate;
      [|reflexivity|exact (truthy_nonempty id Hid)|exact Hlive].
    rewrite Hf. simpl. repeat split.
    eexists; split; [reflexivity | discriminate].
  - destruct (String.eqb _ _);
      [|simpl; repeat split; eexists; split; [reflexivity | discriminate]].
    rewrite (deleteUser_duplicate_run _ id w Hlive).
    rewrite Hf. simpl. repeat split.
    eexists; split; [reflexivity | discriminate].
Qed.

Lemma webhook_duplicate_delivery_witness :
  let w := advance 1000
             (snd (WebhookController.handleClerkWebhook WebhookSample.svix
                     WebhookSample.env
                     (WebhookSample.delivery "msg_1" "v1,ok" "created")
                     Sample.empty)) in
  let r := WebhookController.handleClerkWebhook WebhookSample.svix
             WebhookSample.env
             (WebhookSample.delivery "msg_1" "v1,ok" "created") w in
  users (snd r) = users w
  /\ redis (snd r) = redis w
  /\ exists resp, fst r = Ok resp /\ WebhookController.status resp <> 500.
Proof.
  intros w.
  apply (webhook_duplicate_delivery WebhookSample.svix WebhookSample.env
           (WebhookSample.delivery "msg_1" "v1,ok" "created") w
           (WebhookSample.event "user.created"
              [ClerkUserEvent.mkEmail "a@x.com" "idn_1"])
           "msg_1").
  - apply verified_sample; [discriminate | reflexivity].
  - vm_compute. reflexivity.
  - reflexivity.
Defined.

(* ===================================================================== *)
(** ** Configuration and transport *)
(* ===================================================================== *)

(** X24. The Redis URL: [getRedisUrl] never returns an empty URL; in
    production it returns the configured [REDIS_URL] or throws, and never
    falls back to the localhost default; it throws only in production with
    [REDIS_URL] unset or empty. *)
Theorem getRedisUrl_spec (env : gmap string string) :
  match RedisConfig.getRedisUrl env with
  | Ok url =>
      url <> ""
      /\ (env !! "REDIS_URL" = Some url
          \/ (url = "redis://localhost:6379"
              /\ env !! "NODE_ENV" <> Some "production"
              /\ JsString.truthy_opt (env !! "REDIS_URL") = false))
  | Throw e =>
      env !! "NODE_ENV" = Some "production"
      /\ JsString.truthy_opt (env !! "REDIS_URL") = false
      /\ message e = "REDIS_URL is not defined in production environment"
  end.
Proof.
  unfold RedisConfig.getRedisUrl.
  assert (forall mode, String.eqb mode "production" = false ->
                       Some mode <> Some "production") as Hneq.
  { intros mode H [= ->]. discriminate H. }
  destruct (env !! "REDIS_URL") as [url|];
    [destruct url as [|c url]|]; simpl;
    destruct (env !! "NODE_ENV") as [mode|];
    try destruct (String.eqb mode "production") eqn:Hmode;
    try apply String.eqb_eq in Hmode; subst;
    repeat split; auto; try discriminate;
    right; repeat split; auto; discriminate.
Qed.

(** X25. The logging interceptor is transparent: whatever the handler it
    wraps returns or throws, the interceptor returns or throws the same, and
    leaves the world as the handler left it. *)
Theorem loggingInterceptor_transparent {Req Res : Type}
    (next : Req -> M Res) (req : Req) (w : World) :
  GrpcServer.loggingInterceptor next req w = next req w.
Proof.
  unfold GrpcServer.loggingInterceptor, bind, try_catch, ret, throw, new_Date.
  destruct (next req w) as [[res|e] w']; reflexivity.
Qed.

(** X26. The JIT sync is an upsert, not an insert: when the row of the
    subject exists by the time the JIT branch runs (it was missing at the
    [findUnique] of the handler and another unit of work created it, or
    created and soft-deleted it, while the handler was suspended), the branch,
    with the stores answering and a primary email on the profile, takes the
    update branch of the upsert: the row keeps its id and is rewritten with
    the profile's email, username (or ["user_"] + 8 characters) and image,
    its [deletedAt] is cleared, and that rewritten row is what the checks
    then see.  Redis is not touched. *)
Theorem jit_sync_rewrites_row_created_meanwhile (clerkId : string) (w : World)
    (u : User.t) (clerkUser : ClerkUser.t) (email : string) :
  let r := AuthHandler.jit_provision clerkId w in
  let rewritten :=
    IdentityService.update_data email
      (AuthHandler.or_else (ClerkUser.username clerkUser)
                           ("user_" +:+ JsString.slice_first 8 clerkId))
      (Some (ClerkUser.imageUrl clerkUser)) (now w) u in
  users w !! clerkId = Some u ->
  provider w clerkId = Ok clerkUser ->
  AuthHandler.primaryEmail clerkUser = Some email ->
  email <> "" ->
  fault_free w ->
  fst r = Ok rewritten
  /\ users (snd r) = <[clerkId := rewritten]> (users w)
  /\ User.id rewritten = User.id u
  /\ User.deletedAt rewritten = None
  /\ redis (snd r) = redis w
  /\ trace (snd r)
     = (trace w ++ [ClerkGetUser clerkId; UserUpsert clerkId;
                    UserFindUniqueOrThrow clerkId])%list.
Proof.
  intros r rewritten Hu Hprov Hmail Hemail Hok. subst r.
  pose proof (truthy_nonempty email Hemail) as Ht.
  unfold AuthHandler.jit_provision, IdentityService.syncUser,
    IdentityService.alreadyProcessed, bind, ret, throw, try_catch,
    clerk_users_getUser, ask, prisma_user_findUniqueOrThrow,
    prisma_user_upsert, new_Date, uuidv7, await.
  simpl.
  repeat (progress (rewrite ?Hok, ?Hprov, ?Hmail, ?Ht, ?Hu,
                      ?lookup_insert_eq; simpl)).
  fold rewritten.
  split; [reflexivity|]. split; [reflexivity|]. split; [reflexivity|].
  split; [reflexivity|]. split; [reflexivity|].
  now rewrite <- !app_assoc.
Qed.

Lemma jit_sync_rewrites_row_created_meanwhile_witness :
  let r := AuthHandler.jit_provision "u1" Sample.banned in
  let rewritten :=
    IdentityService.update_data "a@x.com" "user_u1"
      (Some "https://img/u1.png") 1000 (Sample.user_u1 (Some 500)) in
  fst r = Ok rewritten
  /\ users (snd r) = <["u1" := rewritten]> (users Sample.banned)
  /\ User.id rewritten = "0192f0c1-0000-7000-8000-9"
  /\ User.deletedAt rewritten = None
  /\ redis (snd r) = ∅
  /\ trace (snd r)
     = [ClerkGetUser "u1"; UserUpsert "u1"; UserFindUniqueOrThrow "u1"].
Proof.
  apply (jit_sync_rewrites_row_created_meanwhile "u1" Sample.banned
           (Sample.user_u1 (Some 500))
           {| ClerkUser.emailAddresses := [ClerkUser.mkEmail "idn_1" "a@x.com"];
              ClerkUser.primaryEmailAddressId := Some "idn_1";
              ClerkUser.username := None;
              ClerkUser.imageUrl := "https://img/u1.png" |}
           "a@x.com").
  - reflexivity.
  - reflexivity.
  - reflexivity.
  - discriminate.
  - intros n. reflexivity.
Defined.
